(** * RSI trading agent: signing, order placement and the five-minute cycle

    A shallow embedding of [RSI_trading_aiAgent.py] and the properties of
    its request signing, its exchange client, its two order operations,
    the indicator and advisor clients and the body of the main loop.

    Conventions of the embedding.
    - The strings the program is configured with and the ones it builds
      (URLs, headers, JSON text, the HTTP method) are Rocq [string]s, whose
      characters are the code points below 256.
    - Text that leaves that range is a list of Unicode code points
      ([unicode]), without lone surrogates: the reply of the advisor, and
      the text that is signed, since [str.upper] of the method may leave
      the range.  [str.upper], [str.strip] and the utf-8 codec are given
      in full on it.
    - [bytes] are lists of integers in [0, 256).
    - Python floats are kept abstract behind the class [PyFloat]: the
      program only converts to them, prints them and passes them on.
    - The configuration constants read from the environment at import time
      are the fields of a record [config].  They are taken to be set, but
      for [GROQ_API_KEY]: the client of the advisor is built from it
      outside any handler, so its absence is modelled.
    - Console output, sleeping and network traffic are events of a trace;
      the answers of the outside world are read from tapes. *)

From Stdlib Require Import ZArith List String Ascii Bool Lia DecimalString.
Import ListNotations.

Set Warnings "-register-all".

Local Open Scope string_scope.
Local Open Scope list_scope.
Local Open Scope Z_scope.

(* ================================================================== *)
(** ** Text and bytes *)

Definition bytes := list Z.

Definition ord (c : ascii) : Z := Z.of_N (N_of_ascii c).
Definition chr (z : Z) : ascii := ascii_of_N (Z.to_N (z mod 256)).

(** A Python [str] in general: the list of its code points. *)
Definition unicode := list Z.

(** The text of a [string]. *)
Definition unicode_of (s : string) : unicode := map ord (list_ascii_of_string s).

Fixpoint unicode_eqb (a b : unicode) : bool :=
  match a, b with
  | [], [] => true
  | x :: a', y :: b' => (x =? y) && unicode_eqb a' b'
  | _, _ => false
  end.

(** The utf-8 bytes of one code point: one byte below 0x80, two below
    0x800, three below 0x10000, four from there on. *)
Definition encode_point (c : Z) : bytes :=
  let low k := Z.lor 128 (Z.land (Z.shiftr c (6 * k)) 63) in
  if c <? 128 then [c]
  else if c <? 2048 then [Z.lor 192 (Z.shiftr c 6); low 0]
  else if c <? 65536 then [Z.lor 224 (Z.shiftr c 12); low 1; low 0]
  else [Z.lor 240 (Z.shiftr c 18); low 2; low 1; low 0].

(** [t.encode("utf-8")]. *)
Definition unicode_encode (t : unicode) : bytes := flat_map encode_point t.

(** [s.encode("utf-8")] of a [string]. *)
Definition encode_utf8 (s : string) : bytes := unicode_encode (unicode_of s).

(** [b.decode("utf-8")] on bytes below 128, the only ones base64 emits. *)
Fixpoint decode_ascii (b : bytes) : string :=
  match b with
  | [] => EmptyString
  | x :: r => String (chr x) (decode_ascii r)
  end.

(** [str(n)] of a Python int. *)
Definition str_of_int (n : Z) : string := NilZero.string_of_int (Z.to_int n).

(* ================================================================== *)
(** ** [str.upper] and [str.strip]

    As CPython 3.11 has them: the white space and the full uppercase
    mapping of Unicode 14; [str.upper] maps character by character. *)

(** The code points [str.isspace] holds of, as closed intervals. *)
Definition space_runs : list (Z * Z) :=
  [ (9, 13); (28, 32); (133, 133); (160, 160); (5760, 5760); (8192, 8202);
    (8232, 8233); (8239, 8239); (8287, 8287); (12288, 12288) ].

Definition is_space (c : Z) : bool :=
  existsb (fun r => (fst r <=? c) && (c <=? snd r)) space_runs.

(** The code points whose uppercase is one other code point: [(first,
    last, step, shift)] stands for [first], [first + step], ... up to
    [last], each mapped to itself plus [shift]. *)
Definition upper_runs : list (Z * Z * Z * Z) :=
  [
    (97, 122, 1, -32); (181, 181, 1, 743); (224, 246, 1, -32);
    (248, 254, 1, -32); (255, 255, 1, 121); (257, 303, 2, -1);
    (305, 305, 1, -232); (307, 311, 2, -1); (314, 328, 2, -1);
    (331, 375, 2, -1); (378, 382, 2, -1); (383, 383, 1, -300);
    (384, 384, 1, 195); (387, 389, 2, -1); (392, 392, 1, -1);
    (396, 396, 1, -1); (402, 402, 1, -1); (405, 405, 1, 97);
    (409, 409, 1, -1); (410, 410, 1, 163); (414, 414, 1, 130);
    (417, 421, 2, -1); (424, 424, 1, -1); (429, 429, 1, -1);
    (432, 432, 1, -1); (436, 438, 2, -1); (441, 441, 1, -1);
    (445, 445, 1, -1); (447, 447, 1, 56); (453, 453, 1, -1);
    (454, 454, 1, -2); (456, 456, 1, -1); (457, 457, 1, -2);
    (459, 459, 1, -1); (460, 460, 1, -2); (462, 476, 2, -1);
    (477, 477, 1, -79); (479, 495, 2, -1); (498, 498, 1, -1);
    (499, 499, 1, -2); (501, 501, 1, -1); (505, 543, 2, -1);
    (547, 563, 2, -1); (572, 572, 1, -1); (575, 576, 1, 10815);
    (578, 578, 1, -1); (583, 591, 2, -1); (592, 592, 1, 10783);
    (593, 593, 1, 10780); (594, 594, 1, 10782); (595, 595, 1, -210);
    (596, 596, 1, -206); (598, 599, 1, -205); (601, 601, 1, -202);
    (603, 603, 1, -203); (604, 604, 1, 42319); (608, 608, 1, -205);
    (609, 609, 1, 42315); (611, 611, 1, -207); (613, 613, 1, 42280);
    (614, 614, 1, 42308); (616, 616, 1, -209); (617, 617, 1, -211);
    (618, 618, 1, 42308); (619, 619, 1, 10743); (620, 620, 1, 42305);
    (623, 623, 1, -211); (625, 625, 1, 10749); (626, 626, 1, -213);
    (629, 629, 1, -214); (637, 637, 1, 10727); (640, 640, 1, -218);
    (642, 642, 1, 42307); (643, 643, 1, -218); (647, 647, 1, 42282);
    (648, 648, 1, -218); (649, 649, 1, -69); (650, 651, 1, -217);
    (652, 652, 1, -71); (658, 658, 1, -219); (669, 669, 1, 42261);
    (670, 670, 1, 42258); (837, 837, 1, 84); (881, 883, 2, -1);
    (887, 887, 1, -1); (891, 893, 1, 130); (940, 940, 1, -38);
    (941, 943, 1, -37); (945, 961, 1, -32); (962, 962, 1, -31);
    (963, 971, 1, -32); (972, 972, 1, -64); (973, 974, 1, -63);
    (976, 976, 1, -62); (977, 977, 1, -57); (981, 981, 1, -47);
    (982, 982, 1, -54); (983, 983, 1, -8); (985, 1007, 2, -1);
    (1008, 1008, 1, -86); (1009, 1009, 1, -80); (1010, 1010, 1, 7);
    (1011, 1011, 1, -116); (1013, 1013, 1, -96); (1016, 1016, 1, -1);
    (1019, 1019, 1, -1); (1072, 1103, 1, -32); (1104, 1119, 1, -80);
    (1121, 1153, 2, -1); (1163, 1215, 2, -1); (1218, 1230, 2, -1);
    (1231, 1231, 1, -15); (1233, 1327, 2, -1); (1377, 1414, 1, -48);
    (4304, 4346, 1, 3008); (4349, 4351, 1, 3008); (5112, 5117, 1, -8);
    (7296, 7296, 1, -6254); (7297, 7297, 1, -6253); (7298, 7298, 1, -6244);
    (7299, 7300, 1, -6242); (7301, 7301, 1, -6243); (7302, 7302, 1, -6236);
    (7303, 7303, 1, -6181); (7304, 7304, 1, 35266); (7545, 7545, 1, 35332);
    (7549, 7549, 1, 3814); (7566, 7566, 1, 35384); (7681, 7829, 2, -1);
    (7835, 7835, 1, -59); (7841, 7935, 2, -1); (7936, 7943, 1, 8);
    (7952, 7957, 1, 8); (7968, 7975, 1, 8); (7984, 7991, 1, 8);
    (8000, 8005, 1, 8); (8017, 8023, 2, 8); (8032, 8039, 1, 8);
    (8048, 8049, 1, 74); (8050, 8053, 1, 86); (8054, 8055, 1, 100);
    (8056, 8057, 1, 128); (8058, 8059, 1, 112); (8060, 8061, 1, 126);
    (8112, 8113, 1, 8); (8126, 8126, 1, -7205); (8144, 8145, 1, 8);
    (8160, 8161, 1, 8); (8165, 8165, 1, 7); (8526, 8526, 1, -28);
    (8560, 8575, 1, -16); (8580, 8580, 1, -1); (9424, 9449, 1, -26);
    (11312, 11359, 1, -48); (11361, 11361, 1, -1); (11365, 11365, 1, -10795);
    (11366, 11366, 1, -10792); (11368, 11372, 2, -1); (11379, 11379, 1, -1);
    (11382, 11382, 1, -1); (11393, 11491, 2, -1); (11500, 11502, 2, -1);
    (11507, 11507, 1, -1); (11520, 11557, 1, -7264); (11559, 11559, 1, -7264);
    (11565, 11565, 1, -7264); (42561, 42605, 2, -1); (42625, 42651, 2, -1);
    (42787, 42799, 2, -1); (42803, 42863, 2, -1); (42874, 42876, 2, -1);
    (42879, 42887, 2, -1); (42892, 42892, 1, -1); (42897, 42899, 2, -1);
    (42900, 42900, 1, 48); (42903, 42921, 2, -1); (42933, 42947, 2, -1);
    (42952, 42954, 2, -1); (42961, 42961, 1, -1); (42967, 42969, 2, -1);
    (42998, 42998, 1, -1); (43859, 43859, 1, -928); (43888, 43967, 1, -38864);
    (65345, 65370, 1, -32); (66600, 66639, 1, -40); (66776, 66811, 1, -40);
    (66967, 67003, 2, -39); (66968, 66976, 2, -39); (66980, 66992, 2, -39);
    (66996, 67000, 2, -39); (67004, 67004, 1, -39); (68800, 68850, 1, -64);
    (71872, 71903, 1, -32); (93792, 93823, 1, -32); (125218, 125251, 1, -34) ].

(** The code points whose uppercase is several code points. *)
Definition upper_special : list (Z * list Z) :=
  [
    (223, [83; 83]); (329, [700; 78]); (496, [74; 780]);
    (912, [921; 776; 769]); (944, [933; 776; 769]); (1415, [1333; 1362]);
    (7830, [72; 817]); (7831, [84; 776]); (7832, [87; 778]);
    (7833, [89; 778]); (7834, [65; 702]); (8016, [933; 787]);
    (8018, [933; 787; 768]); (8020, [933; 787; 769]); (8022, [933; 787; 834]);
    (8064, [7944; 921]); (8065, [7945; 921]); (8066, [7946; 921]);
    (8067, [7947; 921]); (8068, [7948; 921]); (8069, [7949; 921]);
    (8070, [7950; 921]); (8071, [7951; 921]); (8072, [7944; 921]);
    (8073, [7945; 921]); (8074, [7946; 921]); (8075, [7947; 921]);
    (8076, [7948; 921]); (8077, [7949; 921]); (8078, [7950; 921]);
    (8079, [7951; 921]); (8080, [7976; 921]); (8081, [7977; 921]);
    (8082, [7978; 921]); (8083, [7979; 921]); (8084, [7980; 921]);
    (8085, [7981; 921]); (8086, [7982; 921]); (8087, [7983; 921]);
    (8088, [7976; 921]); (8089, [7977; 921]); (8090, [7978; 921]);
    (8091, [7979; 921]); (8092, [7980; 921]); (8093, [7981; 921]);
    (8094, [7982; 921]); (8095, [7983; 921]); (8096, [8040; 921]);
    (8097, [8041; 921]); (8098, [8042; 921]); (8099, [8043; 921]);
    (8100, [8044; 921]); (8101, [8045; 921]); (8102, [8046; 921]);
    (8103, [8047; 921]); (8104, [8040; 921]); (8105, [8041; 921]);
    (8106, [8042; 921]); (8107, [8043; 921]); (8108, [8044; 921]);
    (8109, [8045; 921]); (8110, [8046; 921]); (8111, [8047; 921]);
    (8114, [8122; 921]); (8115, [913; 921]); (8116, [902; 921]);
    (8118, [913; 834]); (8119, [913; 834; 921]); (8124, [913; 921]);
    (8130, [8138; 921]); (8131, [919; 921]); (8132, [905; 921]);
    (8134, [919; 834]); (8135, [919; 834; 921]); (8140, [919; 921]);
    (8146, [921; 776; 768]); (8147, [921; 776; 769]); (8150, [921; 834]);
    (8151, [921; 776; 834]); (8162, [933; 776; 768]); (8163, [933; 776; 769]);
    (8164, [929; 787]); (8166, [933; 834]); (8167, [933; 776; 834]);
    (8178, [8186; 921]); (8179, [937; 921]); (8180, [911; 921]);
    (8182, [937; 834]); (8183, [937; 834; 921]); (8188, [937; 921]);
    (64256, [70; 70]); (64257, [70; 73]); (64258, [70; 76]);
    (64259, [70; 70; 73]); (64260, [70; 70; 76]); (64261, [83; 84]);
    (64262, [83; 84]); (64275, [1348; 1350]); (64276, [1348; 1333]);
    (64277, [1348; 1339]); (64278, [1358; 1350]); (64279, [1348; 1341]) ].

Definition in_run (c : Z) (r : Z * Z * Z * Z) : bool :=
  let '(first, last, step, _) := r in
  (first <=? c) && (c <=? last) && ((c - first) mod step =? 0).

(** The uppercase of one code point. *)
Definition to_upper (c : Z) : list Z :=
  match find (fun p => fst p =? c) upper_special with
  | Some (_, u) => u
  | None =>
      match find (in_run c) upper_runs with
      | Some (_, _, _, shift) => [c + shift]
      | None => [c]
      end
  end.

(** [t.upper()]. *)
Definition unicode_upper (t : unicode) : unicode := flat_map to_upper t.

Fixpoint unicode_lstrip (t : unicode) : unicode :=
  match t with
  | [] => []
  | c :: r => if is_space c then unicode_lstrip r else t
  end.

Fixpoint unicode_rstrip (t : unicode) : unicode :=
  match t with
  | [] => []
  | c :: r =>
      match unicode_rstrip r with
      | [] => if is_space c then [] else [c]
      | r' => c :: r'
      end
  end.

(** [t.strip()] with no argument. *)
Definition unicode_strip (t : unicode) : unicode := unicode_rstrip (unicode_lstrip t).

(** The three words of the advisor. *)
Definition BUY : unicode := unicode_of "BUY".
Definition SELL : unicode := unicode_of "SELL".
Definition NOTHING : unicode := unicode_of "NOTHING".

(* ================================================================== *)
(** ** SHA-256, HMAC and base64 ([hashlib], [hmac], [base64]) *)

Module Sha256.

Definition wrap (x : Z) : Z := x mod 2 ^ 32.
Definition add32 (x y : Z) : Z := wrap (x + y).
Definition rotr (n x : Z) : Z :=
  Z.lor (Z.shiftr x n) (wrap (Z.shiftl x (32 - n))).
Definition not32 (x : Z) : Z := 2 ^ 32 - 1 - x.

Definition ch (x y z : Z) : Z := Z.lxor (Z.land x y) (Z.land (not32 x) z).
Definition maj (x y z : Z) : Z :=
  Z.lxor (Z.lxor (Z.land x y) (Z.land x z)) (Z.land y z).
Definition bsig0 (x : Z) : Z :=
  Z.lxor (Z.lxor (rotr 2 x) (rotr 13 x)) (rotr 22 x).
Definition bsig1 (x : Z) : Z :=
  Z.lxor (Z.lxor (rotr 6 x) (rotr 11 x)) (rotr 25 x).
Definition ssig0 (x : Z) : Z :=
  Z.lxor (Z.lxor (rotr 7 x) (rotr 18 x)) (Z.shiftr x 3).
Definition ssig1 (x : Z) : Z :=
  Z.lxor (Z.lxor (rotr 17 x) (rotr 19 x)) (Z.shiftr x 10).

(** The constants of FIPS 180-4, from their definition: the first 32
    bits of the fractional parts of the cube roots of the first 64 primes
    ([K]) and of the square roots of the first 8 primes ([H0]). *)
Definition is_prime (n : Z) : bool :=
  forallb (fun d => negb (n mod Z.of_nat d =? 0)) (seq 2 (Z.to_nat n - 2)).

Definition primes_below (n : nat) : list Z :=
  filter is_prime (map Z.of_nat (seq 2 (n - 2))).

(** The integer cube root below [2 ^ bits], found bit by bit from the top. *)
Fixpoint cube_root (bits : nat) (r n : Z) : Z :=
  match bits with
  | O => r
  | S b =>
      let r' := r + 2 ^ Z.of_nat b in
      cube_root b (if r' * r' * r' <=? n then r' else r) n
  end.

Definition K : list Z :=
  Eval vm_compute in
    map (fun p => wrap (cube_root 36 0 (p * 2 ^ 96))) (primes_below 312).

Definition H0 : list Z :=
  Eval vm_compute in
    map (fun p => wrap (Z.sqrt (p * 2 ^ 64))) (primes_below 20).

(** Big-endian bytes of a number, [n] of them. *)
Fixpoint be_bytes (n : nat) (x : Z) : bytes :=
  match n with
  | O => []
  | S m => Z.shiftr x (8 * Z.of_nat m) mod 256 :: be_bytes m x
  end.

Definition be_word (b : bytes) : Z :=
  fold_left (fun acc x => acc * 256 + x) b 0.

(** The message followed by 0x80, zeros up to 56 modulo 64, and the bit
    length on eight bytes. *)
Definition pad (msg : bytes) : bytes :=
  let len := Z.of_nat (List.length msg) in
  let zeros := Z.to_nat ((55 - len) mod 64) in
  msg ++ [128] ++ repeat 0 zeros ++ be_bytes 8 (8 * len).

Fixpoint words (n : nat) (b : bytes) : list Z :=
  match n with
  | O => []
  | S m => be_word (firstn 4 b) :: words m (skipn 4 b)
  end.

(** The message schedule, grown from the sixteen words of a block. *)
Fixpoint schedule (n : nat) (w : list Z) : list Z :=
  match n with
  | O => w
  | S m =>
      let t := List.length w in
      let at_ k := nth (t - k) w 0 in
      schedule m
        (w ++ [add32 (add32 (ssig1 (at_ 2%nat)) (at_ 7%nat))
                     (add32 (ssig0 (at_ 15%nat)) (at_ 16%nat))])
  end.

Definition round (s : list Z) (kw : Z * Z) : list Z :=
  match s with
  | [a; b; c; d; e; f; g; h] =>
      let t1 :=
        add32 (add32 (add32 h (bsig1 e)) (add32 (ch e f g) (fst kw)))
              (snd kw) in
      let t2 := add32 (bsig0 a) (maj a b c) in
      [add32 t1 t2; a; b; c; add32 d t1; e; f; g]
  | _ => s
  end.

Definition compress (h : list Z) (block : bytes) : list Z :=
  let w := schedule 48 (words 16 block) in
  map (fun p => add32 (fst p) (snd p))
      (combine h (fold_left round (combine K w) h)).

Fixpoint blocks (n : nat) (h : list Z) (b : bytes) : list Z :=
  match n with
  | O => h
  | S m => blocks m (compress h (firstn 64 b)) (skipn 64 b)
  end.

Definition digest (msg : bytes) : bytes :=
  let p := pad msg in
  flat_map (be_bytes 4) (blocks (List.length p / 64) H0 p).

End Sha256.

(** [hmac.new(key, msg, hashlib.sha256).digest()]. *)
Definition hmac_sha256 (key msg : bytes) : bytes :=
  let k := if (64 <? Z.of_nat (List.length key)) then Sha256.digest key else key in
  let k := k ++ repeat 0 (64 - List.length k) in
  Sha256.digest (map (Z.lxor 92) k
                 ++ Sha256.digest (map (Z.lxor 54) k ++ msg)).

Definition b64_alphabet : string :=
  "ABCDEFGHIJKLMNOPQRSTUVWXYZabcdefghijklmnopqrstuvwxyz0123456789+/".

Definition b64_digit (i : Z) : Z :=
  match get (Z.to_nat i) b64_alphabet with
  | Some c => ord c
  | None => 61
  end.

(** [base64.b64encode]: three bytes to four digits, [=] padding. *)
Fixpoint b64_groups (n : nat) (b : bytes) : bytes :=
  match n with
  | O => []
  | S m =>
      match b with
      | [] => []
      | [x] =>
          [b64_digit (Z.shiftr x 2); b64_digit (Z.shiftl (Z.land x 3) 4);
           61; 61]
      | [x; y] =>
          [b64_digit (Z.shiftr x 2);
           b64_digit (Z.lor (Z.shiftl (Z.land x 3) 4) (Z.shiftr y 4));
           b64_digit (Z.shiftl (Z.land y 15) 2); 61]
      | x :: y :: z :: r =>
          [b64_digit (Z.shiftr x 2);
           b64_digit (Z.lor (Z.shiftl (Z.land x 3) 4) (Z.shiftr y 4));
           b64_digit (Z.lor (Z.shiftl (Z.land y 15) 2) (Z.shiftr z 6));
           b64_digit (Z.land z 63)] ++ b64_groups m r
      end
  end.

Definition b64encode (b : bytes) : bytes := b64_groups (List.length b) b.

(** The lowercase hexadecimal text of a byte string, for the test vectors. *)
Definition hex_digit (i : Z) : ascii :=
  match get (Z.to_nat i) "0123456789abcdef" with
  | Some c => c
  | None => "?"%char
  end.

Fixpoint hexlify (b : bytes) : string :=
  match b with
  | [] => EmptyString
  | x :: r => String (hex_digit (x / 16)) (String (hex_digit (x mod 16)) (hexlify r))
  end.

(* ================================================================== *)
(** ** Python floats

    [float_of_int] and [float_of_str] are the builtin [float] on an int
    and on a str, [None] standing for the OverflowError or ValueError it
    raises; [float_is_zero] is [x == 0.0]; [float_repr] is [repr(x)] and
    [float_json] is the text [json.dumps] writes for [x]. *)

Class PyFloat : Type := {
  pyfloat : Type;
  float_of_int : Z -> option pyfloat;
  float_of_str : string -> option pyfloat;
  float_is_zero : pyfloat -> bool;
  float_repr : pyfloat -> string;
  float_json : pyfloat -> string
}.

(* ================================================================== *)
(** ** JSON values and [json.dumps] *)

Section Json.

Context {F : PyFloat}.

(** The Python values [json] reads and writes: [None], bools, ints,
    floats, strs, lists and dicts with str keys (in insertion order). *)
Inductive json : Type :=
| JNull
| JBool (b : bool)
| JInt (n : Z)
| JFloat (x : pyfloat)
| JStr (s : string)
| JArr (items : list json)
| JObj (members : list (string * json)).

(** [bool(v)]: what [if v] tests. *)
Definition truthy (v : json) : bool :=
  match v with
  | JNull => false
  | JBool b => b
  | JInt n => negb (n =? 0)
  | JFloat x => negb (float_is_zero x)
  | JStr s => negb (String.eqb s "")
  | JArr items => match items with [] => false | _ :: _ => true end
  | JObj members => match members with [] => false | _ :: _ => true end
  end.

Definition dquote : ascii := "034"%char.
Definition backslash : ascii := "092"%char.

Definition esc (c : ascii) : string := String backslash (String c "").

(** One character under [ensure_ascii=True]. *)
Definition escape_char (c : ascii) : string :=
  let n := ord c in
  if n =? 34 then esc dquote
  else if n =? 92 then esc backslash
  else if n =? 10 then esc "n"
  else if n =? 13 then esc "r"
  else if n =? 9 then esc "t"
  else if n =? 8 then esc "b"
  else if n =? 12 then esc "f"
  else if (32 <=? n) && (n <=? 126) then String c ""
  else (esc "u" ++ "00"
        ++ String (hex_digit (n / 16)) (String (hex_digit (n mod 16)) ""))%string.

Fixpoint escape (s : string) : string :=
  match s with
  | EmptyString => EmptyString
  | String c r => (escape_char c ++ escape r)%string
  end.

Definition quote (s : string) : string :=
  String dquote (escape s ++ String dquote "")%string.

Fixpoint join (sep : string) (parts : list string) : string :=
  match parts with
  | [] => ""
  | [p] => p
  | p :: rest => (p ++ sep ++ join sep rest)%string
  end.

(** [json.dumps(v, separators=(item_sep, key_sep))]. *)
Fixpoint dumps (item_sep key_sep : string) (v : json) : string :=
  match v with
  | JNull => "null"
  | JBool true => "true"
  | JBool false => "false"
  | JInt n => str_of_int n
  | JFloat x => float_json x
  | JStr s => quote s
  | JArr items =>
      ("[" ++ join item_sep (map (dumps item_sep key_sep) items) ++ "]")%string
  | JObj members =>
      ("{" ++ join item_sep
                (map (fun kv : string * json =>
                        let (k, x) := kv in
                        quote k ++ key_sep ++ dumps item_sep key_sep x)
                     members)
           ++ "}")%string
  end.

(** One member of an object as [dumps] writes it. *)
Definition member (item_sep key_sep : string) (kv : string * json) : string :=
  let (k, x) := kv in (quote k ++ key_sep ++ dumps item_sep key_sep x)%string.

(** [json.dumps(v)]: the default separators. *)
Definition dumps_default : json -> string := dumps ", " ": ".

(** [json.dumps(v, separators=(",", ":"))]. *)
Definition dumps_compact : json -> string := dumps "," ":".

(** [d.get(key)] on the members of a dict. *)
Fixpoint lookup (key : string) (members : list (string * json)) : option json :=
  match members with
  | [] => None
  | (k, x) :: rest => if String.eqb k key then Some x else lookup key rest
  end.

End Json.

Arguments json {F}.

(* ================================================================== *)
(** ** The outside world and the effects of the program *)

(** The exceptions the program can meet, all of them subclasses of
    [Exception], which is what its two handlers catch. *)
Inductive exn : Type :=
| RequestException      (* raised by [requests] when no response arrives *)
| JSONDecodeError       (* [response.json()] on a body that is not JSON *)
| KeyError
| TypeError
| ValueError
| OverflowError
| IndexError
| AttributeError
| APIError              (* raised by a completion call: transport, auth, ... *)
| GroqError.            (* raised by [Groq(...)] when it is given no key *)

Inductive result (A : Type) : Type :=
| Ok (a : A)
| Raised (e : exn).

Arguments Ok {A} a.
Arguments Raised {A} e.

Section World.

Context {F : PyFloat}.

(** A [requests.Response]: its [status_code], its [text], and what
    [json()] returns, [None] when [json()] raises. *)
Record response : Type := {
  status_code : Z;
  text : string;
  json_body : option json
}.

(** What one HTTP call comes to. *)
Inductive http_outcome : Type :=
| Fails (e : exn)
| Replies (r : response).

(** What one chat completion comes to: an exception, or the
    [message.content] of each of the [choices], [None] for a choice
    without text. *)
Inductive chat_outcome : Type :=
| ChatFails (e : exn)
| ChatReplies (choices : list (option unicode)).

(** The answers of the outside world, one tape per service, indexed by
    the number of calls made so far.  [clock] is
    [int(time.time() * 1000)] at each reading. *)
Record world : Type := {
  clock : nat -> Z;
  taapi : nat -> http_outcome;
  groq : nat -> chat_outcome;
  bitget : nat -> http_outcome
}.

(** How far each tape has been read. *)
Record cursor : Type := {
  at_clock : nat;
  at_taapi : nat;
  at_groq : nat;
  at_bitget : nat
}.

Definition origin : cursor :=
  {| at_clock := 0; at_taapi := 0; at_groq := 0; at_bitget := 0 |}.

Definition past_clock (c : cursor) : cursor :=
  {| at_clock := S (at_clock c); at_taapi := at_taapi c;
     at_groq := at_groq c; at_bitget := at_bitget c |}.

Definition past_taapi (c : cursor) : cursor :=
  {| at_clock := at_clock c; at_taapi := S (at_taapi c);
     at_groq := at_groq c; at_bitget := at_bitget c |}.

Definition past_groq (c : cursor) : cursor :=
  {| at_clock := at_clock c; at_taapi := at_taapi c;
     at_groq := S (at_groq c); at_bitget := at_bitget c |}.

Definition past_bitget (c : cursor) : cursor :=
  {| at_clock := at_clock c; at_taapi := at_taapi c;
     at_groq := at_groq c; at_bitget := S (at_bitget c) |}.

(** The lines the program prints, by content. *)
Inductive line : Type :=
| Starting
| Separator
| Checking
| Skipping
| CurrentRsi (rsi : pyfloat)
| AiDecision (decision : unicode)
| Nothing
| CycleComplete
| RequestStatus (method endpoint : string) (status : Z)
| ResultDump (result : json)
| RsiFailed (e : exn)
| GroqApiError (e : exn).

(** What the program does to the outside world. *)
Inductive event : Type :=
| Print (l : line)
| Sleep (seconds : Z)
| HttpGet (url : string)
| HttpRequest (method url : string) (headers : list (string * string))
              (data : string)
| ChatCreate (api_key : string) (messages : list (string * string))
             (model : string).

Definition trace := list event.

(** A computation reads the tapes from a cursor on, and yields the events
    it caused, the new cursor and a value or an exception. *)
Definition M (A : Type) : Type := cursor -> trace * cursor * result A.

Definition ret {A} (a : A) : M A := fun c => ([], c, Ok a).

Definition raise {A} (e : exn) : M A := fun c => ([], c, Raised e).

Definition bind {A B} (m : M A) (k : A -> M B) : M B :=
  fun c =>
    match m c with
    | (t, c', Ok a) =>
        match k a c' with
        | (t', c'', r) => (t ++ t', c'', r)
        end
    | (t, c', Raised e) => (t, c', Raised e)
    end.

(** [try: m  except Exception as e: handler e]. *)
Definition try_except {A} (m : M A) (handler : exn -> M A) : M A :=
  fun c =>
    match m c with
    | (t, c', Ok a) => (t, c', Ok a)
    | (t, c', Raised e) =>
        match handler e c' with
        | (t', c'', r) => (t ++ t', c'', r)
        end
    end.

Definition emit (e : event) : M unit := fun c => ([e], c, Ok tt).

Definition print (l : line) : M unit := emit (Print l).

(** A step that touches nothing outside. *)
Definition lift {A} (r : result A) : M A := fun c => ([], c, r).

Definition of_option {A} (e : exn) (o : option A) : result A :=
  match o with
  | Some a => Ok a
  | None => Raised e
  end.

Definition and_then {A B} (r : result A) (k : A -> result B) : result B :=
  match r with
  | Ok a => k a
  | Raised e => Raised e
  end.

End World.

Declare Scope agent_scope.
Delimit Scope agent_scope with agent.
Notation "x <- m ;; k" := (bind m (fun x => k))
  (at level 61, m at next level, right associativity) : agent_scope.
Notation "m ;; k" := (bind m (fun _ => k))
  (at level 61, right associativity) : agent_scope.

Local Open Scope agent_scope.

(* ================================================================== *)
(** ** The program *)

(** The constants read with [os.getenv] at import time. *)
Record config : Type := {
  BITGET_API_KEY : string;
  BITGET_SECRET : string;
  BITGET_PASSPHRASE : string;
  GROQ_API_KEY : option string;   (* [None]: not in the environment *)
  GROQ_MODEL : string;
  TAAPI_SECRET : string
}.

Definition BASE_URL : string := "https://api.bitget.com".
Definition PAPER_TRADING : bool := true.
Definition SYMBOL : string := "ETHUSDT".

Section Agent.

Context {F : PyFloat}.
Variable cfg : config.
Variable w : world.

Definition TAAPI_URL : string :=
  ("https://api.taapi.io/rsi?"
   ++ "secret=" ++ TAAPI_SECRET cfg
   ++ "&exchange=binance&symbol=ETH/USDT&interval=5m")%string.

(** *** Library calls that touch the outside world *)

(** [int(time.time() * 1000)]. *)
Definition time_ms : M Z :=
  fun c =>
    ([], past_clock c, Ok (clock w (at_clock c))).

Definition sleep (seconds : Z) : M unit := emit (Sleep seconds).

Definition answer (o : http_outcome) : result response :=
  match o with
  | Fails e => Raised e
  | Replies r => Ok r
  end.

(** [requests.get(url)], answered by the indicator provider. *)
Definition requests_get (url : string) : M response :=
  fun c =>
    ([HttpGet url], past_taapi c, answer (taapi w (at_taapi c))).

(** [requests.request(method, url, headers=headers, data=data)],
    answered by the exchange. *)
Definition requests_request (method url : string)
    (headers : list (string * string)) (data : string) : M response :=
  fun c =>
    ([HttpRequest method url headers data], past_bitget c,
     answer (bitget w (at_bitget c))).

(** [groq_client.chat.completions.create(messages=..., model=...)]. *)
Definition chat_create (api_key : string)
    (messages : list (string * string)) (model : string)
  : M (list (option unicode)) :=
  fun c =>
    ([ChatCreate api_key messages model], past_groq c,
     match groq w (at_groq c) with
     | ChatFails e => Raised e
     | ChatReplies choices => Ok choices
     end).

(** [response.json()]. *)
Definition response_json (r : response) : result json :=
  of_option JSONDecodeError (json_body r).

(** [data[key]] for a str [key]. *)
Definition subscript (data : json) (key : string) : result json :=
  match data with
  | JObj members => of_option KeyError (lookup key members)
  | _ => Raised TypeError
  end.

(** [float(v)]. *)
Definition py_float (v : json) : result pyfloat :=
  match v with
  | JFloat x => Ok x
  | JInt n => of_option OverflowError (float_of_int n)
  | JBool b => of_option OverflowError (float_of_int (if b then 1 else 0))
  | JStr s => of_option ValueError (float_of_str s)
  | JNull | JArr _ | JObj _ => Raised TypeError
  end.

(** *** Bitget signature and order *)

Definition generate_signature
    (timestamp method request_path : string) (body : json)
    (secret_key : string) : string :=
  let body_str := if truthy body then dumps_compact body else "" in
  let pre_hash :=
    unicode_of timestamp ++ unicode_upper (unicode_of method)
    ++ unicode_of request_path ++ unicode_of body_str in
  let mac := hmac_sha256 (encode_utf8 secret_key) (unicode_encode pre_hash) in
  decode_ascii (b64encode mac).

Definition request_headers (timestamp signature : string)
  : list (string * string) :=
  [ ("ACCESS-KEY", BITGET_API_KEY cfg);
    ("ACCESS-SIGN", signature);
    ("ACCESS-PASSPHRASE", BITGET_PASSPHRASE cfg);
    ("ACCESS-TIMESTAMP", timestamp);
    ("Content-Type", "application/json");
    ("locale", "en-US");
    ("paptrading", if PAPER_TRADING then "1" else "0") ].

Definition bitget_request (method endpoint : string) (payload : json)
  : M json :=
  now <- time_ms ;;
  let timestamp := str_of_int now in
  let signature :=
    generate_signature timestamp method endpoint payload (BITGET_SECRET cfg) in
  let headers := request_headers timestamp signature in
  let url := (BASE_URL ++ endpoint)%string in
  response <- requests_request method url headers (dumps_default payload) ;;
  result <- try_except (lift (response_json response))
              (fun _ => ret (JObj [("error", JStr (text response))])) ;;
  print (RequestStatus method endpoint (status_code response)) ;;
  print (ResultDump result) ;;
  ret result.

Definition close_payload (side : string) : json :=
  let opposite_side := if String.eqb side "sell" then "buy" else "sell" in
  JObj [ ("symbol", JStr SYMBOL);
         ("productType", JStr "USDT-FUTURES");
         ("marginMode", JStr "isolated");
         ("marginCoin", JStr "USDT");
         ("size", JStr "1000");
         ("side", JStr opposite_side);
         ("tradeSide", JStr "close");
         ("orderType", JStr "market");
         ("force", JStr "gtc") ].

Definition open_payload (side : string) : json :=
  JObj [ ("symbol", JStr SYMBOL);
         ("productType", JStr "USDT-FUTURES");
         ("marginMode", JStr "isolated");
         ("marginCoin", JStr "USDT");
         ("size", JStr "0.05");
         ("side", JStr side);
         ("tradeSide", JStr "open");
         ("orderType", JStr "market");
         ("force", JStr "gtc") ].

Definition place_order : string := "/api/v2/mix/order/place-order".

(** Close opposite position before opening a new one. *)
Definition close_position (side : string) : M unit :=
  bitget_request "POST" place_order (close_payload side) ;; ret tt.

(** Open new position in given direction. *)
Definition open_position (side : string) : M unit :=
  bitget_request "POST" place_order (open_payload side) ;; ret tt.

(** *** TAAPI and the AI decision *)

Definition get_rsi_value : M (option pyfloat) :=
  try_except
    (r <- requests_get TAAPI_URL ;;
     data <- lift (response_json r) ;;
     x <- lift (and_then (subscript data "value") py_float) ;;
     ret (Some x))
    (fun e => print (RsiFailed e) ;; ret None).

Definition system_prompt : string :=
  "You are a world expert at crypto trading.".

Definition user_prompt (rsi_value : pyfloat) : string :=
  ("The current Relative Strength Index (RSI) for Ethereum (ETH) is "
   ++ float_repr rsi_value ++ ". "
   ++ "Based on this, decide if you should BUY, SELL or do NOTHING. "
   ++ "Respond with one word only: BUY, SELL or NOTHING.")%string.

(** [choices[0].message.content]: IndexError without a choice,
    AttributeError on [.strip()] when the content is [None]. *)
Definition first_content (choices : list (option unicode)) : result unicode :=
  match choices with
  | [] => Raised IndexError
  | None :: _ => Raised AttributeError
  | Some content :: _ => Ok content
  end.

(** [Groq(api_key=api_key)]: the client keeps the key, which its calls
    carry.  Given [None] it looks the variable up itself, finds what
    [os.getenv] found, and raises. *)
Definition Groq (api_key : option string) : result string :=
  of_option GroqError api_key.

(** The client is built first, outside the [try]. *)
Definition get_ai_decision (rsi_value : pyfloat) : M unicode :=
  groq_client <- lift (Groq (GROQ_API_KEY cfg)) ;;
  try_except
    (chat <- chat_create groq_client
               [ ("system", system_prompt);
                 ("user", user_prompt rsi_value) ]
               (GROQ_MODEL cfg) ;;
     content <- lift (first_content chat) ;;
     let decision := unicode_upper (unicode_strip content) in
     print (AiDecision decision) ;;
     ret decision)
    (fun e => print (GroqApiError e) ;; ret NOTHING).

(** *** Main loop *)

(** One turn of [while True]. *)
Definition cycle : M unit :=
  print Separator ;;
  print Checking ;;
  rsi <- get_rsi_value ;;
  match rsi with
  | None =>
      print Skipping ;;
      sleep 300
  | Some rsi =>
      print (CurrentRsi rsi) ;;
      decision <- get_ai_decision rsi ;;
      (if unicode_eqb decision BUY then
         close_position "buy" ;;
         open_position "buy"
       else if unicode_eqb decision SELL then
         close_position "sell" ;;
         open_position "sell"
       else
         print Nothing) ;;
      print CycleComplete ;;
      sleep 300
  end.



End Agent.

(* ================================================================== *)
(** ** Notions the properties are stated with *)

Section Notions.

Context {F : PyFloat}.

(** The calls that reach the exchange, in the order they were made. *)
Definition is_order (e : event) : bool :=
  match e with
  | HttpRequest _ _ _ _ => true
  | _ => false
  end.

Definition order_calls (t : trace) : trace := filter is_order t.

(** The order request [bitget_request] sends for [payload] when the
    clock reads [now]. *)
Definition order_request (cfg : config) (now : Z) (payload : json) : event :=
  let timestamp := str_of_int now in
  HttpRequest "POST" (BASE_URL ++ place_order)%string
    (request_headers cfg timestamp
       (generate_signature timestamp "POST" place_order payload
          (BITGET_SECRET cfg)))
    (dumps_default payload).

(** A field of a JSON object. *)
Definition field (key : string) (v : json) : option json :=
  match v with
  | JObj members => lookup key members
  | _ => None
  end.

(** What [bitget_request] hands back for a response: the parsed body, or
    the raw text under the key [error]. *)
Definition parsed_or_raw (r : response) : json :=
  match json_body r with
  | Some body => body
  | None => JObj [("error", JStr (text r))]
  end.

(** The trimmed, uppercased text of the first choice of a completion, if
    the call returned one. *)
Definition advice (o : chat_outcome) : option unicode :=
  match o with
  | ChatReplies (Some content :: _) =>
      Some (unicode_upper (unicode_strip content))
  | _ => None
  end.

(** The exception a completion leaves [get_ai_decision] with when there
    is no text to read. *)
Definition advice_error (o : chat_outcome) : exn :=
  match o with
  | ChatFails e => e
  | ChatReplies [] => IndexError
  | ChatReplies (_ :: _) => AttributeError
  end.

(** [float(data["value"])] on the decoded body of the indicator reply. *)
Definition value_of (data : json) : result pyfloat :=
  and_then (subscript data "value") py_float.

(** The indicator fetch outcomes with nothing to read, and the exception
    each ends in: no response, a body that is not JSON, a body without a
    [value] that [float] accepts.  The status code plays no part. *)
Inductive unavailable : http_outcome -> exn -> Prop :=
| no_response e :
    unavailable (Fails e) e
| not_json r :
    json_body r = None ->
    unavailable (Replies r) JSONDecodeError
| no_value r data e :
    json_body r = Some data ->
    value_of data = Raised e ->
    unavailable (Replies r) e.

(** The signing function as the specification words it: the body is
    canonicalised to compact JSON, or to the empty string when it is
    absent ([None]). *)
Definition canonical_body_spec (body : json) : string :=
  match body with
  | JNull => ""
  | _ => dumps_compact body
  end.

Definition sign_spec (timestamp method path : string) (body : json)
    (secret : string) : string :=
  decode_ascii
    (b64encode
       (hmac_sha256 (encode_utf8 secret)
          (unicode_encode
             (unicode_of timestamp ++ unicode_upper (unicode_of method)
              ++ unicode_of path
              ++ unicode_of (canonical_body_spec body))))).

(** A method with its ASCII letters in capitals, the way HTTP methods
    are written. *)
Definition capital (c : ascii) : ascii :=
  let n := ord c in
  if (97 <=? n) && (n <=? 122) then chr (n - 32) else c.

Fixpoint capitals (s : string) : string :=
  match s with
  | EmptyString => EmptyString
  | String c r => String (capital c) (capitals r)
  end.

(** The code points of a run of [upper_runs]. *)
Definition run_points (r : Z * Z * Z * Z) : list Z :=
  let '(first, last, step, _) := r in
  map (fun k => first + step * Z.of_nat k)
    (seq 0 (S (Z.to_nat ((last - first) / step)))).

(** A text that does not start with white space, and one that does not
    end with it. *)
Definition starts_clean (t : unicode) : Prop :=
  match t with
  | [] => True
  | c :: _ => is_space c = false
  end.

Definition ends_clean (t : unicode) : Prop :=
  match t with
  | [] => True
  | _ :: _ => is_space (last t 0) = false
  end.

(** What is checked of every uppercase in the tables: it is not empty,
    [to_upper] leaves each of its code points as it is, and it neither
    starts nor ends with white space. *)
Definition settled (u : list Z) : bool :=
  forallb (fun x => unicode_eqb (to_upper x) [x]) u
  && match u with
     | [] => false
     | x :: _ => negb (is_space x) && negb (is_space (last u 0))
     end.

End Notions.

(* ================================================================== *)
(** ** Parts of a run *)

Section Courses.

Context {F : PyFloat}.
Variable cfg : config.
Variable w : world.

(** The request [bitget_request] sends when the clock reads [now]. *)
Definition sent (method endpoint : string) (payload : json) (now : Z)
  : event :=
  let timestamp := str_of_int now in
  HttpRequest method (BASE_URL ++ endpoint)%string
    (request_headers cfg timestamp
       (generate_signature timestamp method endpoint payload
          (BITGET_SECRET cfg)))
    (dumps_default payload).

(** What the indicator fetch reads off an outcome. *)
Definition reading (o : http_outcome) : result pyfloat :=
  and_then (and_then (answer o) response_json) value_of.

(** The rest of the loop body once [decision] is known: the three arms of
    the [if], then the closing line and the sleep. *)
Definition act (decision : unicode) : M unit :=
  (if unicode_eqb decision BUY then
     close_position cfg w "buy" ;;
     open_position cfg w "buy"
   else if unicode_eqb decision SELL then
     close_position cfg w "sell" ;;
     open_position cfg w "sell"
   else
     print Nothing) ;;
  print CycleComplete ;;
  sleep 300.

(** What is printed about the answer to an order request. *)
Definition answered (r : response) : trace :=
  [Print (RequestStatus "POST" place_order (status_code r));
   Print (ResultDump (parsed_or_raw r))].

End Courses.

(** The two sides of the market, as the specification enumerates them. *)
Inductive Side : Type := Buy | Sell.

Definition side_name (s : Side) : string :=
  match s with
  | Buy => "buy"
  | Sell => "sell"
  end.

Definition opposite (s : Side) : Side :=
  match s with
  | Buy => Sell
  | Sell => Buy
  end.

(** The decision string the scheduler acts on for a side. *)
Definition decision_for (s : Side) : unicode :=
  match s with
  | Buy => BUY
  | Sell => SELL
  end.

(* ================================================================== *)
(** ** What is observed of a run *)

Section Observations.

Context {F : PyFloat}.

(** What [get_ai_decision] comes back with for a completion. *)
Definition decision_of (o : chat_outcome) : unicode :=
  match advice o with
  | Some decision => decision
  | None => NOTHING
  end.

(** What it prints about the completion. *)
Definition advice_line (o : chat_outcome) : line :=
  match advice o with
  | Some decision => AiDecision decision
  | None => GroqApiError (advice_error o)
  end.

(** The side [main] trades on for a decision string, if any. *)
Definition trade (decision : unicode) : option Side :=
  if unicode_eqb decision BUY then Some Buy
  else if unicode_eqb decision SELL then Some Sell
  else None.

(** The completion request [get_ai_decision] makes for a reading, with
    the key its client keeps. *)
Definition asking (cfg : config) (key : string) (rsi : pyfloat) : event :=
  ChatCreate key
    [("system", system_prompt); ("user", user_prompt rsi)]
    (GROQ_MODEL cfg).

Definition is_sleep (e : event) : bool :=
  match e with
  | Sleep _ => true
  | _ => false
  end.

(** The pauses of a trace. *)
Definition sleeps (t : trace) : trace := filter is_sleep t.

Definition is_call (e : event) : bool :=
  match e with
  | HttpGet _ | HttpRequest _ _ _ _ | ChatCreate _ _ _ => true
  | _ => false
  end.

(** Everything a trace sends over the network, in order. *)
Definition calls (t : trace) : trace := filter is_call t.

Fixpoint assoc (key : string) (pairs : list (string * string)) : option string :=
  match pairs with
  | [] => None
  | (k, v) :: rest => if String.eqb k key then Some v else assoc key rest
  end.

(** A header of a request to the exchange. *)
Definition header (name : string) (e : event) : option string :=
  match e with
  | HttpRequest _ _ headers _ => assoc name headers
  | _ => None
  end.

(** The method and the URL of a request to the exchange. *)
Definition target (e : event) : option (string * string) :=
  match e with
  | HttpRequest method url _ _ => Some (method, url)
  | _ => None
  end.

(** The body of a request to the exchange. *)
Definition body_sent (e : event) : option string :=
  match e with
  | HttpRequest _ _ _ data => Some data
  | _ => None
  end.

End Observations.

(* ================================================================== *)
(** ** A runtime and a world to run examples in *)

Module Sample.

Fixpoint digits_value (acc : Z) (t : unicode) : option Z :=
  match t with
  | [] => Some acc
  | n :: r =>
      if (48 <=? n) && (n <=? 57) then digits_value (10 * acc + (n - 48)) r
      else None
  end.

(** Digits with an optional sign, white space around them allowed. *)
Definition whole_of_str (s : string) : option Z :=
  match unicode_strip (unicode_of s) with
  | [] => None
  | 45 :: c :: r => option_map Z.opp (digits_value 0 (c :: r))
  | 43 :: c :: r => digits_value 0 (c :: r)
  | t => digits_value 0 t
  end.

(** The floats of integer value, without rounding or overflow: enough to
    carry an indicator reading through a cycle. *)
#[global] Instance whole_floats : PyFloat := {|
  pyfloat := Z;
  float_of_int := fun n => Some n;
  float_of_str := whole_of_str;
  float_is_zero := fun x => x =? 0;
  float_repr := fun x => (str_of_int x ++ ".0")%string;
  float_json := fun x => (str_of_int x ++ ".0")%string
|}.

Definition keys : config := {|
  BITGET_API_KEY := "bg_key";
  BITGET_SECRET := "bg_secret";
  BITGET_PASSPHRASE := "bg_pass";
  GROQ_API_KEY := Some "gsk_key";
  GROQ_MODEL := "llama-3.3-70b-versatile";
  TAAPI_SECRET := "taapi_secret"
|}.

(** The same configuration when [GROQ_API_KEY] is not in the environment. *)
Definition keyless : config := {|
  BITGET_API_KEY := "bg_key";
  BITGET_SECRET := "bg_secret";
  BITGET_PASSPHRASE := "bg_pass";
  GROQ_API_KEY := None;
  GROQ_MODEL := "llama-3.3-70b-versatile";
  TAAPI_SECRET := "taapi_secret"
|}.

Definition ok_reply (body : json) : http_outcome :=
  Replies {| status_code := 200; text := dumps_default body;
             json_body := Some body |}.

Definition rsi_reply (status : Z) (rsi : Z) : http_outcome :=
  let body := JObj [("value", JInt rsi)] in
  Replies {| status_code := status; text := dumps_default body;
             json_body := Some body |}.

Definition bad_gateway : http_outcome :=
  Replies {| status_code := 502; text := "<html>Bad Gateway</html>";
             json_body := None |}.

(** A world that answers every call the same way. *)
Definition steady (rsi : http_outcome) (chat : chat_outcome)
    (exchange : http_outcome) : world :=
  {| clock := fun n => 1700000000000 + Z.of_nat n;
     taapi := fun _ => rsi;
     groq := fun _ => chat;
     bitget := fun _ => exchange |}.

Definition says (content : string) : chat_outcome :=
  ChatReplies [Some (unicode_of content)].

End Sample.

(* ================================================================== *)
(** ** Test vectors for the library functions *)

Example sha256_constants :
  List.length Sha256.K = 64%nat /\ List.length Sha256.H0 = 8%nat
  /\ hd 0 Sha256.K = 0x428a2f98 /\ last Sha256.K 0 = 0xc67178f2
  /\ hd 0 Sha256.H0 = 0x6a09e667 /\ last Sha256.H0 0 = 0x5be0cd19.
Proof. vm_compute. repeat split. Qed.

Example sha256_abc :
  hexlify (Sha256.digest (encode_utf8 "abc"))
  = "ba7816bf8f01cfea414140de5dae2223b00361a396177a9cb410ff61f20015ad".
Proof. vm_compute. reflexivity. Qed.

Example sha256_empty :
  hexlify (Sha256.digest [])
  = "e3b0c44298fc1c149afbf4c8996fb92427ae41e4649b934ca495991b7852b855".
Proof. vm_compute. reflexivity. Qed.

Example sha256_two_blocks :
  hexlify (Sha256.digest (encode_utf8
    "abcdbcdecdefdefgefghfghighijhijkijkljklmklmnlmnomnopnopq"))
  = "248d6a61d20638b8e5c026930c3e6039a33ce45964ff2167f6ecedd419db06c1".
Proof. vm_compute. reflexivity. Qed.

Example hmac_rfc4231_case2 :
  hexlify (hmac_sha256 (encode_utf8 "Jefe")
                       (encode_utf8 "what do ya want for nothing?"))
  = "5bdcc146bf60754e6a042426089575c75a003f089d2739839dec58b964ec3843".
Proof. vm_compute. reflexivity. Qed.

Example b64_padding :
  map (fun s => decode_ascii (b64encode (encode_utf8 s))) ["Man"; "Ma"; "M"; ""]
  = ["TWFu"; "TWE="; "TQ=="; ""].
Proof. vm_compute. reflexivity. Qed.

Example str_of_int_examples :
  str_of_int 1700000000000 = "1700000000000"
  /\ str_of_int 0 = "0" /\ str_of_int (-12) = "-12".
Proof. vm_compute. repeat split. Qed.

(** [str.encode] at the ends of the four ranges of utf-8. *)
Example unicode_encode_examples :
  unicode_encode [97; 2047; 2048; 65535; 65536; 1114111]
  = [97; 223; 191; 224; 160; 128; 239; 191; 191; 240; 144; 128; 128;
     244; 143; 191; 191]
  /\ unicode_encode [233] = [195; 169]
  /\ unicode_encode [8364] = [226; 130; 172]
  /\ unicode_encode [128640] = [240; 159; 154; 128]
  /\ encode_utf8 (String (chr 233) "t" ++ String (chr 233) "") = [195; 169; 116; 195; 169].
Proof. vm_compute. repeat split. Qed.

(** [str.upper] and [str.strip] on replies, as CPython computes them. *)
Example unicode_upper_examples :
  unicode_upper (unicode_of "buy") = BUY
  /\ unicode_upper [99; 97; 102; 233] = [67; 65; 70; 201]
  /\ unicode_upper [223] = [83; 83]
  /\ unicode_upper [383; 101; 108; 108] = SELL
  /\ unicode_upper [181] = [924]
  /\ unicode_upper [255] = [376]
  /\ unicode_upper [64257] = [70; 73]
  /\ unicode_upper [454] = [452]
  /\ unicode_upper [329] = [700; 78]
  /\ unicode_upper [98; 117; 121; 32; 128640] = [66; 85; 89; 32; 128640].
Proof. vm_compute. repeat split. Qed.

Example unicode_strip_examples :
  unicode_strip [32; 12288; 32; 98; 117; 121; 10; 133] = [98; 117; 121]
  /\ unicode_strip (unicode_of " buy now  ") = unicode_of "buy now"
  /\ unicode_strip [8201; 10] = []
  /\ unicode_strip [] = [].
Proof. vm_compute. repeat split. Qed.

Example sha256_block_boundaries :
  map (fun n => hexlify (Sha256.digest (repeat 97 n))) [55%nat; 56%nat; 64%nat]
  = ["9f4390f8d30c2dd92ec9f095b65e2b9ae9b0a925a5258e241c9f1e910f734318";
     "b35439a4ac6f0948b6d6f9e3c6af0f5f590ce20f1bde7090ef7970686ec6738a";
     "ffe054fe7ae0cb6dc65c3af9b61d5209f439851db43d0ba5997337df154668eb"].
Proof. vm_compute. reflexivity. Qed.

Example hmac_long_key :
  hexlify (hmac_sha256 (repeat 120 100) (encode_utf8 "hello"))
  = "b9da8eea8a985969e2e9e85c62d5700c6f63d0f61494baa608a98136e98addbd".
Proof. vm_compute. reflexivity. Qed.

(* ================================================================== *)
(** ** How each operation runs *)

Section Runs.

Context {F : PyFloat}.
Variable cfg : config.
Variable w : world.

Lemma bitget_request_run method endpoint payload c :
  bitget_request cfg w method endpoint payload c =
  let request := sent cfg method endpoint payload (clock w (at_clock c)) in
  let c' := past_bitget (past_clock c) in
  match bitget w (at_bitget c) with
  | Fails e => ([request], c', Raised e)
  | Replies r =>
      ([request;
        Print (RequestStatus method endpoint (status_code r));
        Print (ResultDump (parsed_or_raw r))],
       c', Ok (parsed_or_raw r))
  end.
Proof.
  unfold bitget_request, bind, time_ms, requests_request, try_except, lift,
    response_json, parsed_or_raw, sent, print, emit, ret.
  cbn [at_bitget past_clock].
  destruct (bitget w (at_bitget c)) as [e | r]; cbn [answer].
  - reflexivity.
  - destruct (json_body r); reflexivity.
Qed.

Lemma order_request_sent payload now :
  sent cfg "POST" place_order payload now = order_request cfg now payload.
Proof. reflexivity. Qed.

(** Both order operations are one [bitget_request] whose result is
    dropped. *)
Lemma order_run payload c :
  (bitget_request cfg w "POST" place_order payload ;; ret tt) c =
  let request := order_request cfg (clock w (at_clock c)) payload in
  let c' := past_bitget (past_clock c) in
  match bitget w (at_bitget c) with
  | Fails e => ([request], c', Raised e)
  | Replies r =>
      ([request;
        Print (RequestStatus "POST" place_order (status_code r));
        Print (ResultDump (parsed_or_raw r))],
       c', Ok tt)
  end.
Proof.
  unfold bind at 1. rewrite bitget_request_run.
  cbv zeta. rewrite order_request_sent.
  destruct (bitget w (at_bitget c)); reflexivity.
Qed.

Lemma unavailable_reading o e :
  unavailable o e <-> reading o = Raised e.
Proof.
  unfold reading. split.
  - intros [e' | r Hr | r data e' Hr Hv]; cbn.
    + reflexivity.
    + unfold response_json. rewrite Hr. reflexivity.
    + unfold response_json. rewrite Hr. cbn. exact Hv.
  - destruct o as [e' | r]; cbn.
    + intros [= ->]. constructor.
    + unfold response_json.
      destruct (json_body r) as [data |] eqn:Hr; cbn.
      * intros Hv. now apply no_value with data.
      * intros [= <-]. now constructor.
Qed.

Lemma get_rsi_value_run c :
  get_rsi_value cfg w c =
  match reading (taapi w (at_taapi c)) with
  | Ok x => ([HttpGet (TAAPI_URL cfg)], past_taapi c, Ok (Some x))
  | Raised e =>
      ([HttpGet (TAAPI_URL cfg); Print (RsiFailed e)], past_taapi c, Ok None)
  end.
Proof.
  unfold get_rsi_value, reading, value_of, try_except, bind, requests_get,
    lift, print, emit, ret.
  destruct (taapi w (at_taapi c)) as [e | r]; cbn [answer and_then].
  - reflexivity.
  - destruct (response_json r) as [data | e]; cbn [and_then].
    + destruct (and_then (subscript data "value") py_float); reflexivity.
    + reflexivity.
Qed.

Lemma get_ai_decision_run rsi c :
  get_ai_decision cfg w rsi c =
  match GROQ_API_KEY cfg with
  | None => ([], c, Raised GroqError)
  | Some key =>
      let o := groq w (at_groq c) in
      ([asking cfg key rsi; Print (advice_line o)], past_groq c,
       Ok (decision_of o))
  end.
Proof.
  unfold get_ai_decision, Groq, try_except, bind, chat_create, lift, print,
    emit, ret, asking, advice_line, decision_of, advice, advice_error.
  destruct (GROQ_API_KEY cfg) as [key |]; [| reflexivity].
  cbn [of_option].
  destruct (groq w (at_groq c)) as [e | [| [content |] rest]]; reflexivity.
Qed.

Lemma unicode_eqb_eq (a b : unicode) : unicode_eqb a b = true <-> a = b.
Proof.
  revert b. induction a as [| x a IH]; intros [| y b]; cbn [unicode_eqb];
    try (split; [discriminate | discriminate]); [tauto |].
  rewrite andb_true_iff, Z.eqb_eq, IH. split.
  - intros [-> ->]. reflexivity.
  - intros [= -> ->]. auto.
Qed.

Lemma unicode_eqb_neq (a b : unicode) : unicode_eqb a b = false <-> a <> b.
Proof.
  rewrite <- unicode_eqb_eq. destruct (unicode_eqb a b); split;
    congruence.
Qed.

Lemma cycle_run c :
  cycle cfg w c =
  match get_rsi_value cfg w c with
  | (t, c1, Ok None) =>
      ([Print Separator; Print Checking] ++ t ++ [Print Skipping; Sleep 300],
       c1, Ok tt)
  | (t, c1, Ok (Some rsi)) =>
      match get_ai_decision cfg w rsi c1 with
      | (t', c2, Ok decision) =>
          match act cfg w decision c2 with
          | (t'', c3, r) =>
              ([Print Separator; Print Checking] ++ t
               ++ [Print (CurrentRsi rsi)] ++ t' ++ t'', c3, r)
          end
      | (t', c2, Raised e) =>
          ([Print Separator; Print Checking] ++ t
           ++ [Print (CurrentRsi rsi)] ++ t', c2, Raised e)
      end
  | (t, c1, Raised e) => ([Print Separator; Print Checking] ++ t, c1, Raised e)
  end.
Proof.
  unfold cycle, act.
  unfold bind at 1 2 3. unfold print at 1 2, emit. cbn [app].
  destruct (get_rsi_value cfg w c) as [[t c1] [[rsi |] | e]].
  - unfold bind at 1 2. unfold print at 1, emit. cbn [app].
    destruct (get_ai_decision cfg w rsi c1) as [[t' c2] [decision | e]].
    + destruct (bind _ _ c2) as [[t'' c3] r]. reflexivity.
    + reflexivity.
  - unfold bind, print, sleep, emit. cbn [app]. reflexivity.
  - reflexivity.
Qed.

Lemma act_trade (s : Side) c :
  act cfg w (decision_for s) c =
  let closing :=
    order_request cfg (clock w (at_clock c)) (close_payload (side_name s)) in
  let opening :=
    order_request cfg (clock w (S (at_clock c)))
      (open_payload (side_name s)) in
  let c1 := past_bitget (past_clock c) in
  let c2 := past_bitget (past_clock c1) in
  match bitget w (at_bitget c) with
  | Fails e => ([closing], c1, Raised e)
  | Replies r =>
      match bitget w (S (at_bitget c)) with
      | Fails e => (closing :: answered r ++ [opening], c2, Raised e)
      | Replies r' =>
          (closing :: answered r ++ opening :: answered r'
           ++ [Print CycleComplete; Sleep 300], c2, Ok tt)
      end
  end.
Proof.
  unfold act, close_position, open_position.
  destruct s; cbn [decision_for side_name];
    [ change (unicode_eqb BUY BUY) with true
    | change (unicode_eqb SELL BUY) with false;
      change (unicode_eqb SELL SELL) with true ];
    cbv iota;
    unfold bind at 1 2;
    rewrite order_run; cbv zeta;
    (destruct (bitget w (at_bitget c)) as [e | r]; [reflexivity |]);
    rewrite order_run; cbv zeta; cbn [at_bitget at_clock past_bitget past_clock];
    destruct (bitget w (S (at_bitget c))) as [e | r']; reflexivity.
Qed.

Lemma act_nothing decision c :
  decision <> BUY -> decision <> SELL ->
  act cfg w decision c = ([Print Nothing; Print CycleComplete; Sleep 300], c, Ok tt).
Proof.
  intros Hb Hs. unfold act.
  apply unicode_eqb_neq in Hb, Hs. rewrite Hb, Hs. reflexivity.
Qed.

Lemma order_calls_app t t' :
  order_calls (t ++ t') = order_calls t ++ order_calls t'.
Proof. apply filter_app. Qed.

Lemma get_rsi_value_quiet c :
  order_calls (fst (fst (get_rsi_value cfg w c))) = [].
Proof.
  rewrite get_rsi_value_run.
  destruct (reading (taapi w (at_taapi c))); reflexivity.
Qed.

Lemma get_ai_decision_quiet rsi c :
  order_calls (fst (fst (get_ai_decision cfg w rsi c))) = [].
Proof.
  rewrite get_ai_decision_run. cbv zeta.
  destruct (GROQ_API_KEY cfg); reflexivity.
Qed.

(** A cycle that has its reading and a decision to trade, when the
    exchange answers the close request: two calls reach the exchange. *)
Lemma cycle_trade (s : Side) c t1 c1 rsi t2 c2 r :
  get_rsi_value cfg w c = (t1, c1, Ok (Some rsi)) ->
  get_ai_decision cfg w rsi c1 = (t2, c2, Ok (decision_for s)) ->
  bitget w (at_bitget c2) = Replies r ->
  order_calls (fst (fst (cycle cfg w c))) =
    [ order_request cfg (clock w (at_clock c2))
        (close_payload (side_name s));
      order_request cfg (clock w (S (at_clock c2)))
        (open_payload (side_name s)) ].
Proof.
  intros Hrsi Hai Hclose.
  pose proof (get_rsi_value_quiet c) as Q1.
  pose proof (get_ai_decision_quiet rsi c1) as Q2.
  rewrite Hrsi in Q1. rewrite Hai in Q2. cbn [fst] in Q1, Q2.
  rewrite cycle_run, Hrsi, Hai, act_trade. cbv zeta. rewrite Hclose.
  destruct (bitget w (S (at_bitget c2))) as [e | r']; cbn [fst];
    rewrite !order_calls_app, Q1, Q2; reflexivity.
Qed.

(** The same cycle when the exchange does not answer the close request:
    the exception leaves the cycle at once, after one call. *)
Lemma cycle_close_unanswered (s : Side) c t1 c1 rsi t2 c2 e :
  get_rsi_value cfg w c = (t1, c1, Ok (Some rsi)) ->
  get_ai_decision cfg w rsi c1 = (t2, c2, Ok (decision_for s)) ->
  bitget w (at_bitget c2) = Fails e ->
  order_calls (fst (fst (cycle cfg w c))) =
    [ order_request cfg (clock w (at_clock c2))
        (close_payload (side_name s)) ]
  /\ snd (cycle cfg w c) = Raised e.
Proof.
  intros Hrsi Hai Hclose.
  pose proof (get_rsi_value_quiet c) as Q1.
  pose proof (get_ai_decision_quiet rsi c1) as Q2.
  rewrite Hrsi in Q1. rewrite Hai in Q2. cbn [fst] in Q1, Q2.
  rewrite cycle_run, Hrsi, Hai, act_trade. cbv zeta. rewrite Hclose.
  cbn [fst snd]. rewrite !order_calls_app, Q1, Q2. split; reflexivity.
Qed.

End Runs.

(* ================================================================== *)
(** ** The signature (C2, C10) *)

Section Signature.

Context {F : PyFloat}.

(** C2, as amended.  For all inputs [generate_signature] returns the
    base64 text of the HMAC-SHA256, keyed by the utf-8 bytes of the
    secret, over the utf-8 bytes of timestamp, uppercased method, path
    and canonical body, where the canonical body is the compact JSON text
    of the body when the body is truthy and the empty string otherwise
    (absent, but also an empty dict or list, an empty string, zero or
    False).  So it is the signing function of the specification applied
    to the body with every falsy body taken as absent.  It is a function
    of its five arguments: identical inputs give identical signatures. *)
Theorem generate_signature_signs timestamp method path body secret :
  generate_signature timestamp method path body secret =
    decode_ascii
      (b64encode
         (hmac_sha256 (encode_utf8 secret)
            (unicode_encode
               (unicode_of timestamp ++ unicode_upper (unicode_of method)
                ++ unicode_of path
                ++ unicode_of
                     (if truthy body then dumps_compact body else "")))))
  /\ generate_signature timestamp method path body secret =
       sign_spec timestamp method path
         (if truthy body then body else JNull) secret
  /\ (forall timestamp' method' path' body' secret',
        timestamp = timestamp' -> method = method' -> path = path' ->
        body = body' -> secret = secret' ->
        generate_signature timestamp method path body secret =
        generate_signature timestamp' method' path' body' secret').
Proof.
  split; [reflexivity |]. split.
  - unfold generate_signature, sign_spec, canonical_body_spec.
    destruct (truthy body) eqn:Ht; [| reflexivity].
    destruct body; try reflexivity. discriminate Ht.
  - intros * -> -> -> -> ->. reflexivity.
Qed.

(** C10.  Signing with an empty dict as body and signing with no body
    give the same signature, and it is the signature of timestamp,
    uppercased method and path followed by the empty string as canonical
    body.  Both bodies are falsy, and that is what the code tests: the
    JSON text of the empty dict, its two braces, is not what is signed. *)
Theorem empty_dict_signs_as_absent timestamp method path secret :
  let canonical_body := "" in
  let signed :=
    unicode_of timestamp ++ unicode_upper (unicode_of method)
    ++ unicode_of path ++ unicode_of canonical_body in
  let signature :=
    decode_ascii
      (b64encode
         (hmac_sha256 (encode_utf8 secret) (unicode_encode signed))) in
  generate_signature timestamp method path (JObj []) secret = signature
  /\ generate_signature timestamp method path JNull secret = signature
  /\ generate_signature timestamp method path (JObj []) secret =
       generate_signature timestamp method path JNull secret
  /\ truthy (JObj []) = false
  /\ truthy JNull = false
  /\ dumps_compact (JObj []) = "{}".
Proof. cbv zeta. repeat split. Qed.

End Signature.

(** The three parts at the close order of a BUY cycle. *)
Lemma generate_signature_signs_witness :
  let body := close_payload "buy" in
  let sign f := f "1700000000000" "POST" place_order body "bg_secret" in
  sign generate_signature =
    decode_ascii
      (b64encode
         (hmac_sha256 (encode_utf8 "bg_secret")
            (unicode_encode
               (unicode_of "1700000000000" ++ unicode_upper (unicode_of "POST")
                ++ unicode_of place_order
                ++ unicode_of (dumps_compact body)))))
  /\ sign generate_signature = sign sign_spec
  /\ sign generate_signature = sign generate_signature.
Proof.
  intros body sign.
  destruct (generate_signature_signs (F := Sample.whole_floats)
              "1700000000000" "POST" place_order body "bg_secret")
    as (Hmac & Hspec & Hsame).
  split; [exact Hmac |]. split; [exact Hspec |].
  exact (Hsame _ _ _ _ _ eq_refl eq_refl eq_refl eq_refl eq_refl).
Defined.

(** C2 as stated fails on a body that is present but falsy.  For the empty
    dict the specification signs the text ending in the two braces, the
    program signs the text without them, and the signatures differ.  Both
    values are the ones the Python library computes. *)
Lemma empty_dict_is_not_signed :
  let sign f :=
    f "1700000000000" "POST" "/api/v2/mix/order/place-order"
      (JObj []) "bg_secret" in
  sign generate_signature = "U5QxQMDFTxAVfnpvdPPUsmmgZdMY+zLC38w4J7h6g0c="
  /\ sign sign_spec = "rqcZWLL6rZ2qkOQiU8VkO1mHUpe+TkyAXuQ0ayCZ2ec="
  /\ sign generate_signature <> sign sign_spec.
Proof.
  intro sign.
  assert (E1 : sign generate_signature
               = "U5QxQMDFTxAVfnpvdPPUsmmgZdMY+zLC38w4J7h6g0c=")
    by (vm_compute; reflexivity).
  assert (E2 : sign sign_spec
               = "rqcZWLL6rZ2qkOQiU8VkO1mHUpe+TkyAXuQ0ayCZ2ec=")
    by (vm_compute; reflexivity).
  split; [exact E1 |]. split; [exact E2 |].
  rewrite E1, E2. discriminate.
Qed.

(** The signature of a close order, as the Python library computes it. *)
Example close_order_signature :
  generate_signature "1700000000000" "post" place_order
    (close_payload "buy") "bg_secret"
  = "7BFy6CbUT0ZSZG79K9xu+gk2HI3ii4GP3j9nYeheZak=".
Proof. vm_compute. reflexivity. Qed.

(** Signatures of methods that [str.upper] takes out of the ASCII letters
    (the method with an e acute, with a sharp s, and with the micro sign
    and y diaeresis), as the Python library computes them. *)
Example signatures_of_other_letters :
  let sign method :=
    generate_signature "1700000000000" method place_order JNull "bg_secret" in
  sign ("caf" ++ String (chr 233) "")%string
    = "4Wy8LHo1cNbD8ld/8MRf3rICXG9WUpKRDN8v0fHiP4I="
  /\ sign ("stra" ++ String (chr 223) "e")%string
    = "KE0z+s2jeUCrKDO4OLFaTWM2Pj83pSyGuYaAhy0Zadk="
  /\ sign (String (chr 181) (String (chr 255) ""))
    = "gx43OsOOeGZvi7+op0LgsrgIqrFeLHkGUCjx4SL/qw8="
  /\ generate_signature "1700000000000" "post" place_order JNull
       ("s" ++ String (chr 233) "cret")%string
    = "iuhCyjezlggXI4zOnIkelISHDzBgkYaXv/fgAYr0QyI=".
Proof. vm_compute. repeat split. Qed.
(* ================================================================== *)
(** ** The two order payloads (C7) *)

Section Payloads.

Context {F : PyFloat}.
Variable cfg : config.
Variable w : world.

(** C7.  For every side argument the close payload has tradeSide
    [close] and size [1000], the open payload has the side it is given,
    tradeSide [open] and size [0.05], and the two sizes differ; for each
    of the two sides the close payload is on the opposite side.  Both
    payloads are functions of the side argument alone, and they are what
    is sent whatever the world holds: the sizes come from no position. *)
Theorem order_payloads (s : Side) (side : string) c :
  field "side" (close_payload (side_name s))
    = Some (JStr (side_name (opposite s)))
  /\ field "tradeSide" (close_payload side) = Some (JStr "close")
  /\ field "size" (close_payload side) = Some (JStr "1000")
  /\ field "side" (open_payload side) = Some (JStr side)
  /\ field "tradeSide" (open_payload side) = Some (JStr "open")
  /\ field "size" (open_payload side) = Some (JStr "0.05")
  /\ JStr "1000" <> JStr "0.05"
  /\ order_calls (fst (fst (close_position cfg w side c)))
       = [order_request cfg (clock w (at_clock c)) (close_payload side)]
  /\ order_calls (fst (fst (open_position cfg w side c)))
       = [order_request cfg (clock w (at_clock c)) (open_payload side)].
Proof.
  split; [destruct s; reflexivity |].
  do 5 (split; [reflexivity |]).
  split; [discriminate |].
  unfold close_position, open_position. rewrite !order_run. cbv zeta.
  destruct (bitget w (at_bitget c)); split; reflexivity.
Qed.

End Payloads.

(* ================================================================== *)
(** ** What is signed and what is sent (C9) *)

Section Separators.

Context {F : PyFloat}.

Lemma length_app (s t : string) :
  String.length (s ++ t) = (String.length s + String.length t)%nat.
Proof. induction s as [| c s IH]; cbn; [| rewrite IH]; reflexivity. Qed.

(** Induction on JSON values, through the lists that nest them. *)
Lemma json_nested_ind (P : json -> Prop) :
  P JNull ->
  (forall b, P (JBool b)) ->
  (forall n, P (JInt n)) ->
  (forall x, P (JFloat x)) ->
  (forall s, P (JStr s)) ->
  (forall items, Forall P items -> P (JArr items)) ->
  (forall members, Forall (fun kv => P (snd kv)) members -> P (JObj members)) ->
  forall v, P v.
Proof.
  intros Hnull Hbool Hint Hfloat Hstr Harr Hobj.
  fix IH 1. intros [| b | n | x | s | items | members].
  - exact Hnull.
  - apply Hbool.
  - apply Hint.
  - apply Hfloat.
  - apply Hstr.
  - apply Harr. induction items as [| v items IHitems]; constructor.
    + apply IH.
    + exact IHitems.
  - apply Hobj. induction members as [| [k v] members IHmembers]; constructor.
    + apply IH.
    + exact IHmembers.
Qed.

Lemma dumps_arr item_sep key_sep items :
  dumps item_sep key_sep (JArr items) =
  ("[" ++ join item_sep (map (dumps item_sep key_sep) items) ++ "]")%string.
Proof. reflexivity. Qed.

Lemma dumps_obj item_sep key_sep members :
  dumps item_sep key_sep (JObj members) =
  ("{" ++ join item_sep (map (member item_sep key_sep) members) ++ "}")%string.
Proof. reflexivity. Qed.

Lemma join_map_le {A} (sep sep' : string) (f g : A -> string) (l : list A) :
  (String.length sep <= String.length sep')%nat ->
  Forall (fun x => (String.length (f x) <= String.length (g x))%nat) l ->
  (String.length (join sep (map f l))
   <= String.length (join sep' (map g l)))%nat.
Proof.
  intros Hsep H. induction H as [| x l Hx Hl IH]; [reflexivity |].
  destruct l as [| y l]; [exact Hx |].
  change (join sep (map f (x :: y :: l)))
    with (f x ++ sep ++ join sep (map f (y :: l)))%string.
  change (join sep' (map g (x :: y :: l)))
    with (g x ++ sep' ++ join sep' (map g (y :: l)))%string.
  rewrite !length_app. lia.
Qed.

Lemma join_map_lt {A} (sep sep' : string) (f g : A -> string) (l : list A) :
  (String.length sep <= String.length sep')%nat ->
  l <> [] ->
  Forall (fun x => (String.length (f x) < String.length (g x))%nat) l ->
  (String.length (join sep (map f l))
   < String.length (join sep' (map g l)))%nat.
Proof.
  intros Hsep Hl H. destruct H as [| x l Hx H]; [congruence |].
  destruct l as [| y l]; [exact Hx |].
  change (join sep (map f (x :: y :: l)))
    with (f x ++ sep ++ join sep (map f (y :: l)))%string.
  change (join sep' (map g (x :: y :: l)))
    with (g x ++ sep' ++ join sep' (map g (y :: l)))%string.
  rewrite !length_app.
  assert (String.length (join sep (map f (y :: l)))
          <= String.length (join sep' (map g (y :: l))))%nat.
  { apply join_map_le; [exact Hsep |].
    eapply Forall_impl; [| exact H]. cbv beta. intros; lia. }
  lia.
Qed.

(** The compact text is never longer than the default text. *)
Lemma dumps_compact_shorter (v : json) :
  (String.length (dumps_compact v) <= String.length (dumps_default v))%nat.
Proof.
  unfold dumps_compact, dumps_default.
  induction v as [| [|] | n | x | s | items IH | members IH]
    using json_nested_ind; try reflexivity.
  - rewrite !dumps_arr, !length_app.
    pose proof (join_map_le "," ", " _ _ items (le_S _ _ (le_n _)) IH).
    lia.
  - rewrite !dumps_obj, !length_app.
    assert (String.length (join "," (map (member "," ":") members))
            <= String.length (join ", " (map (member ", " ": ") members)))%nat.
    { apply join_map_le; [cbn; lia |].
      eapply Forall_impl; [| exact IH]. intros [k x] Hx. cbn [snd] in Hx.
      unfold member. rewrite !length_app. cbn [String.length]. lia. }
    lia.
Qed.

(** A non-empty object is strictly longer in the default text: every
    member gains the space after its colon. *)
Lemma dumps_default_longer members :
  members <> [] ->
  (String.length (dumps_compact (JObj members))
   < String.length (dumps_default (JObj members)))%nat.
Proof.
  intros Hne. unfold dumps_compact, dumps_default.
  rewrite !dumps_obj, !length_app.
  assert (String.length (join "," (map (member "," ":") members))
          < String.length (join ", " (map (member ", " ": ") members)))%nat.
  { apply join_map_lt; [cbn; lia | exact Hne |].
    apply Forall_forall. intros [k x] _.
    pose proof (dumps_compact_shorter x) as Hx.
    unfold dumps_compact, dumps_default in Hx.
    unfold member. rewrite !length_app. cbn [String.length]. lia. }
  lia.
Qed.

Variable cfg : config.
Variable w : world.

(** C9.  For every non-empty payload, [bitget_request] signs the compact
    serialization (the signature in the headers is the HMAC over
    timestamp, uppercased method, path and the text with separators
    [,] and [:]) and sends the default serialization as the body of the
    request, and the two texts differ: the signature does not cover the
    bytes that are sent. *)
Theorem signed_text_is_not_sent_text method endpoint members c :
  members <> [] ->
  let payload := JObj members in
  let timestamp := str_of_int (clock w (at_clock c)) in
  let signed :=
    unicode_of timestamp ++ unicode_upper (unicode_of method)
    ++ unicode_of endpoint ++ unicode_of (dumps_compact payload) in
  let signature :=
    decode_ascii
      (b64encode (hmac_sha256 (encode_utf8 (BITGET_SECRET cfg))
                              (unicode_encode signed))) in
  (exists rest,
     fst (fst (bitget_request cfg w method endpoint payload c)) =
       HttpRequest method (BASE_URL ++ endpoint)%string
         (request_headers cfg timestamp signature)
         (dumps_default payload)
       :: rest)
  /\ dumps_compact payload <> dumps_default payload.
Proof.
  intros Hne payload timestamp signed signature. split.
  - rewrite bitget_request_run. cbv zeta.
    assert (E : sent cfg method endpoint payload (clock w (at_clock c)) =
                HttpRequest method (BASE_URL ++ endpoint)%string
                  (request_headers cfg timestamp signature)
                  (dumps_default payload)).
    { unfold sent, generate_signature, payload.
      destruct members; [congruence | reflexivity]. }
    rewrite E.
    destruct (bitget w (at_bitget c)); eexists; reflexivity.
  - intros E. pose proof (dumps_default_longer members Hne) as H.
    fold payload in H. rewrite E in H. lia.
Qed.

End Separators.

(** The close order of a BUY cycle. *)
Lemma signed_text_is_not_sent_text_witness :
  let members :=
    [ ("symbol", JStr "ETHUSDT"); ("productType", JStr "USDT-FUTURES");
      ("marginMode", JStr "isolated"); ("marginCoin", JStr "USDT");
      ("size", JStr "1000"); ("side", JStr "sell");
      ("tradeSide", JStr "close"); ("orderType", JStr "market");
      ("force", JStr "gtc") ] in
  members <> []
  /\ JObj members = close_payload "buy"
  /\ dumps_compact (JObj members) <> dumps_default (JObj members).
Proof.
  intro members.
  assert (Hne : members <> []) by discriminate.
  split; [exact Hne |]. split; [reflexivity |].
  exact (proj2 (signed_text_is_not_sent_text (F := Sample.whole_floats)
                  Sample.keys
                  (Sample.steady (Sample.rsi_reply 200 25) (Sample.says "BUY")
                     (Sample.ok_reply (JObj [])))
                  "POST" place_order members origin Hne)).
Defined.

(* ================================================================== *)
(** ** The exchange client (C5, C8) *)

Section ExchangeClient.

Context {F : PyFloat}.
Variable cfg : config.
Variable w : world.

(** C5.  When the exchange answers with a response whose body does not
    parse as JSON, [bitget_request] does not raise: it returns the dict
    that holds the raw text of the response under the key [error]. *)
Theorem malformed_body_is_returned method endpoint payload c r :
  bitget w (at_bitget c) = Replies r ->
  json_body r = None ->
  exists t c',
    bitget_request cfg w method endpoint payload c =
      (t, c', Ok (JObj [("error", JStr (text r))])).
Proof.
  intros Hr Hbody. rewrite bitget_request_run, Hr. cbv zeta.
  unfold parsed_or_raw. rewrite Hbody. eauto.
Qed.

(** C8, as amended.  For every request the exchange answers,
    [bitget_request] prints the status code of the response and the
    parsed-or-raw body, in that order after sending, and returns the
    parsed-or-raw body.  The status code is printed only: it is not part
    of what is returned. *)
Theorem answered_request_reports method endpoint payload c r :
  bitget w (at_bitget c) = Replies r ->
  bitget_request cfg w method endpoint payload c =
    ([ sent cfg method endpoint payload (clock w (at_clock c));
       Print (RequestStatus method endpoint (status_code r));
       Print (ResultDump (parsed_or_raw r)) ],
     past_bitget (past_clock c),
     Ok (parsed_or_raw r)).
Proof.
  intros Hr. rewrite bitget_request_run, Hr. reflexivity.
Qed.

End ExchangeClient.

(** The exchange answers a close order with an HTML error page. *)
Lemma malformed_body_is_returned_witness :
  let w := Sample.steady (Sample.rsi_reply 200 25) (Sample.says "BUY")
             Sample.bad_gateway in
  exists t c',
    bitget_request Sample.keys w "POST" place_order (close_payload "buy") origin =
      (t, c', Ok (JObj [("error", JStr "<html>Bad Gateway</html>")])).
Proof.
  intro w.
  apply (malformed_body_is_returned (F := Sample.whole_floats) Sample.keys w
           "POST" place_order (close_payload "buy") origin
           {| status_code := 502; text := "<html>Bad Gateway</html>";
              json_body := None |});
    reflexivity.
Defined.

(** The exchange rejects an order with status 400 and a JSON body. *)
Lemma answered_request_reports_witness :
  let body := JObj [("code", JStr "40762"); ("msg", JStr "The order size is greater than the max open size")] in
  let r := {| status_code := 400; text := dumps_default body;
              json_body := Some body |} in
  let w := Sample.steady (Sample.rsi_reply 200 25) (Sample.says "BUY")
             (Replies r) in
  bitget_request Sample.keys w "POST" place_order (open_payload "buy") origin =
    ([ sent Sample.keys "POST" place_order (open_payload "buy") 1700000000000;
       Print (RequestStatus "POST" place_order 400);
       Print (ResultDump body) ],
     past_bitget (past_clock origin),
     Ok body).
Proof.
  intros body r w.
  apply (answered_request_reports (F := Sample.whole_floats) Sample.keys w
           "POST" place_order (open_payload "buy") origin r).
  reflexivity.
Defined.

(** C8 as stated fails twice over.  A request the exchange does not answer
    surfaces neither a status nor a body: it raises after sending.  And
    two answers with the same body and the statuses 200 and 500 are
    returned to the caller as the same value. *)
Lemma status_not_returned :
  let body := JObj [("msg", JStr "success")] in
  let reply status :=
    Replies {| status_code := status; text := dumps_default body;
               json_body := Some body |} in
  let world_of exchange :=
    Sample.steady (Sample.rsi_reply 200 25) (Sample.says "BUY") exchange in
  let run exchange :=
    bitget_request Sample.keys (world_of exchange)
      "POST" place_order (open_payload "buy") origin in
  run (Fails RequestException) =
    ([sent Sample.keys "POST" place_order (open_payload "buy") 1700000000000],
     past_bitget (past_clock origin), Raised RequestException)
  /\ snd (run (reply 200)) = Ok body
  /\ snd (run (reply 500)) = Ok body.
Proof.
  intros body reply world_of run. unfold run.
  rewrite !bitget_request_run. repeat split.
Qed.

(* ================================================================== *)
(** ** The advisor (C6) *)

Section Advisor.

Context {F : PyFloat}.
Variable cfg : config.
Variable w : world.


End Advisor.


(* ================================================================== *)
(** ** Cycles without orders, and the unset key (C3, C4) *)

Section QuietCycles.

Context {F : PyFloat}.
Variable cfg : config.
Variable w : world.

(** C3, at the input where the code departs from it.  When
    [GROQ_API_KEY] is not set and the indicator gives a reading, the cycle
    raises [GroqError] out of the construction of the client, which comes
    before the [try]: the advisor is not asked and nothing is ordered, but
    the cycle ends in an exception and without its pause, where the claim
    has such a credential failure resolve to NOTHING. *)
Theorem unset_key_crashes_cycle c rsi :
  GROQ_API_KEY cfg = None ->
  reading (taapi w (at_taapi c)) = Ok rsi ->
  get_ai_decision cfg w rsi (past_taapi c) =
    ([], past_taapi c, Raised GroqError)
  /\ cycle cfg w c =
       ([Print Separator; Print Checking; HttpGet (TAAPI_URL cfg);
         Print (CurrentRsi rsi)],
        past_taapi c, Raised GroqError).
Proof.
  intros Hkey Hrsi.
  assert (E : get_ai_decision cfg w rsi (past_taapi c) =
              ([], past_taapi c, Raised GroqError))
    by (rewrite get_ai_decision_run, Hkey; reflexivity).
  split; [exact E |].
  rewrite cycle_run, get_rsi_value_run, Hrsi, E. reflexivity.
Qed.

(** X15.  With [GROQ_API_KEY] set: when the advisory call fails, or
    returns no text, or returns a text that trimmed and uppercased is
    neither BUY nor SELL, the cycle runs to its end without an exception,
    no call reaches the exchange, and the cycle ends in the five-minute
    sleep; if the indicator was read, the line saying that nothing is done
    is printed. *)
Theorem no_advice_no_order key c :
  GROQ_API_KEY cfg = Some key ->
  advice (groq w (at_groq c)) <> Some BUY ->
  advice (groq w (at_groq c)) <> Some SELL ->
  exists t c',
    cycle cfg w c = (t ++ [Sleep 300], c', Ok tt)
    /\ order_calls (t ++ [Sleep 300]) = []
    /\ (forall x, reading (taapi w (at_taapi c)) = Ok x -> In (Print Nothing) t).
Proof.
  intros Hkey Hbuy Hsell.
  rewrite cycle_run, get_rsi_value_run.
  destruct (reading (taapi w (at_taapi c))) as [x | e].
  - rewrite get_ai_decision_run, Hkey. cbv zeta. cbn [at_groq past_taapi].
    rewrite act_nothing.
    + eexists (_ :: _ :: _ :: _ :: _ :: _ :: _ :: _ :: []), _.
      split; [reflexivity |]. split; [reflexivity |].
      intros _ _. cbn. tauto.
    + unfold decision_of.
      destruct (advice (groq w (at_groq c))); [congruence | discriminate].
    + unfold decision_of.
      destruct (advice (groq w (at_groq c))); [congruence | discriminate].
  - eexists (_ :: _ :: _ :: _ :: _ :: []), _.
    split; [reflexivity |]. split; [reflexivity |]. discriminate.
Qed.

(** C4, as amended.  When the indicator request gets no response, or a
    response whose body is not JSON, or one whose body has no [value]
    that converts to a float, the fetch returns [None] without raising,
    and the cycle prints that it skips, sleeps the five minutes and ends:
    no advisory call and no order call is made.  The status code of the
    response is not looked at. *)
Theorem unavailable_skips c e :
  unavailable (taapi w (at_taapi c)) e ->
  get_rsi_value cfg w c =
    ([HttpGet (TAAPI_URL cfg); Print (RsiFailed e)], past_taapi c, Ok None)
  /\ cycle cfg w c =
       ([Print Separator; Print Checking; HttpGet (TAAPI_URL cfg);
         Print (RsiFailed e); Print Skipping; Sleep 300],
        past_taapi c, Ok tt)
  /\ order_calls (fst (fst (cycle cfg w c))) = [].
Proof.
  intros H. apply unavailable_reading in H.
  assert (E : get_rsi_value cfg w c =
              ([HttpGet (TAAPI_URL cfg); Print (RsiFailed e)],
               past_taapi c, Ok None))
    by (rewrite get_rsi_value_run, H; reflexivity).
  split; [exact E |].
  rewrite cycle_run, E. split; reflexivity.
Qed.

(** The other half: a body with a [value] that converts is a reading,
    under any status code. *)
Lemma reading_ignores_status c r data x :
  taapi w (at_taapi c) = Replies r ->
  json_body r = Some data ->
  value_of data = Ok x ->
  get_rsi_value cfg w c = ([HttpGet (TAAPI_URL cfg)], past_taapi c, Ok (Some x)).
Proof.
  intros Hr Hb Hv. rewrite get_rsi_value_run, Hr.
  unfold reading, response_json. cbn [answer and_then].
  rewrite Hb. cbn [of_option and_then]. rewrite Hv. reflexivity.
Qed.

End QuietCycles.

(** The key is not in the environment; the indicator reads 25. *)
Lemma unset_key_crashes_cycle_witness :
  let w := Sample.steady (Sample.rsi_reply 200 25) (Sample.says "NOTHING")
             (Sample.ok_reply (JObj [])) in
  get_ai_decision Sample.keyless w 25 (past_taapi origin) =
    ([], past_taapi origin, Raised GroqError)
  /\ cycle Sample.keyless w origin =
       ([Print Separator; Print Checking; HttpGet (TAAPI_URL Sample.keyless);
         Print (CurrentRsi 25)],
        past_taapi origin, Raised GroqError).
Proof.
  intro w.
  apply (unset_key_crashes_cycle (F := Sample.whole_floats)
           Sample.keyless w origin 25);
    reflexivity.
Defined.

(** The advisor answers with a sentence; nothing is ordered. *)
Lemma no_advice_no_order_witness :
  let w := Sample.steady (Sample.rsi_reply 200 71)
             (Sample.says "SELL please, I'm confident")
             (Sample.ok_reply (JObj [])) in
  exists t c',
    cycle Sample.keys w origin = (t ++ [Sleep 300], c', Ok tt)
    /\ order_calls (t ++ [Sleep 300]) = []
    /\ (forall x, reading (taapi w 0%nat) = Ok x -> In (Print Nothing) t).
Proof.
  intro w.
  apply (no_advice_no_order (F := Sample.whole_floats) Sample.keys w
           "gsk_key" origin).
  - reflexivity.
  - vm_compute. discriminate.
  - vm_compute. discriminate.
Defined.

(** The indicator provider answers with an error page. *)
Lemma unavailable_skips_witness :
  let w := Sample.steady Sample.bad_gateway (Sample.says "BUY")
             (Sample.ok_reply (JObj [])) in
  get_rsi_value Sample.keys w origin =
    ([HttpGet (TAAPI_URL Sample.keys); Print (RsiFailed JSONDecodeError)],
     past_taapi origin, Ok None)
  /\ cycle Sample.keys w origin =
       ([Print Separator; Print Checking; HttpGet (TAAPI_URL Sample.keys);
         Print (RsiFailed JSONDecodeError); Print Skipping; Sleep 300],
        past_taapi origin, Ok tt)
  /\ order_calls (fst (fst (cycle Sample.keys w origin))) = [].
Proof.
  intro w.
  apply (unavailable_skips (F := Sample.whole_floats) Sample.keys w origin).
  apply not_json. reflexivity.
Defined.

(** C4 as stated fails on the status code: a reply with status 500 whose
    body carries a numeric [value] is taken as a reading, the advisor is
    asked, and on BUY both orders are sent. *)
Lemma non_200_reading_is_used :
  let w := Sample.steady (Sample.rsi_reply 500 50) (Sample.says "BUY")
             (Sample.ok_reply (JObj [])) in
  get_rsi_value Sample.keys w origin =
    ([HttpGet (TAAPI_URL Sample.keys)], past_taapi origin, Ok (Some 50))
  /\ order_calls (fst (fst (cycle Sample.keys w origin))) =
       [ order_request Sample.keys 1700000000000 (close_payload "buy");
         order_request Sample.keys 1700000000001 (open_payload "buy") ].
Proof.
  intro w. split; [reflexivity |].
  apply (cycle_trade (F := Sample.whole_floats) Sample.keys w Buy origin
           [HttpGet (TAAPI_URL Sample.keys)] (past_taapi origin) 50
           [asking (F := Sample.whole_floats) Sample.keys "gsk_key" 50;
            Print (AiDecision BUY)]
           (past_groq (past_taapi origin))
           {| status_code := 200; text := dumps_default (JObj []);
              json_body := Some (JObj []) |});
    reflexivity.
Qed.

(* ================================================================== *)
(** ** Close then open (C1) *)

Section CloseThenOpen.

Context {F : PyFloat}.
Variable cfg : config.
Variable w : world.

(** C1, as amended.  In a cycle whose decision is BUY (or SELL) and
    whose close request is answered by the exchange, the calls that reach
    the exchange are exactly two, in this order: the close order on the
    opposite side, then the open order on the decided side.  This holds
    whatever the close answer says and whether or not the open request is
    answered. *)
Theorem acting_closes_then_opens (s : Side) c t1 c1 rsi t2 c2 r :
  get_rsi_value cfg w c = (t1, c1, Ok (Some rsi)) ->
  get_ai_decision cfg w rsi c1 = (t2, c2, Ok (decision_for s)) ->
  bitget w (at_bitget c2) = Replies r ->
  order_calls (fst (fst (cycle cfg w c))) =
    [ order_request cfg (clock w (at_clock c2))
        (close_payload (side_name s));
      order_request cfg (clock w (S (at_clock c2)))
        (open_payload (side_name s)) ]
  /\ field "side" (close_payload (side_name s))
     = Some (JStr (side_name (opposite s)))
  /\ field "tradeSide" (close_payload (side_name s)) = Some (JStr "close")
  /\ field "side" (open_payload (side_name s)) = Some (JStr (side_name s))
  /\ field "tradeSide" (open_payload (side_name s)) = Some (JStr "open").
Proof.
  intros Hrsi Hai Hclose.
  split; [| destruct s; repeat split; reflexivity].
  now apply cycle_trade with t1 c1 rsi t2 r.
Qed.

End CloseThenOpen.

(** A BUY cycle in a world whose exchange answers every request. *)
Lemma acting_closes_then_opens_witness :
  let w := Sample.steady (Sample.rsi_reply 200 25) (Sample.says "buy")
             (Sample.ok_reply (JObj [("code", JStr "00000")])) in
  order_calls (fst (fst (cycle Sample.keys w origin))) =
    [ order_request Sample.keys 1700000000000 (close_payload "buy");
      order_request Sample.keys 1700000000001 (open_payload "buy") ]
  /\ field "side" (close_payload "buy") = Some (JStr "sell")
  /\ field "tradeSide" (close_payload "buy") = Some (JStr "close")
  /\ field "side" (open_payload "buy") = Some (JStr "buy")
  /\ field "tradeSide" (open_payload "buy") = Some (JStr "open").
Proof.
  intro w.
  apply (acting_closes_then_opens (F := Sample.whole_floats)
           Sample.keys w Buy origin
           [HttpGet (TAAPI_URL Sample.keys)] (past_taapi origin) 25
           [asking (F := Sample.whole_floats) Sample.keys "gsk_key" 25;
            Print (AiDecision BUY)]
           (past_groq (past_taapi origin))
           {| status_code := 200;
              text := dumps_default (JObj [("code", JStr "00000")]);
              json_body := Some (JObj [("code", JStr "00000")]) |}).
  - reflexivity.
  - reflexivity.
  - reflexivity.
Defined.

(** C1 as stated fails when the exchange does not answer the close
    request: the decision is BUY, the close order is the only call made,
    and the exception ends the cycle before any open order. *)
Lemma close_unanswered_no_open :
  let w := Sample.steady (Sample.rsi_reply 200 25) (Sample.says "BUY")
             (Fails RequestException) in
  snd (get_ai_decision Sample.keys w 25 (past_taapi origin)) = Ok BUY
  /\ order_calls (fst (fst (cycle Sample.keys w origin))) =
       [ order_request Sample.keys 1700000000000 (close_payload "buy") ]
  /\ snd (cycle Sample.keys w origin) = Raised RequestException.
Proof.
  intro w. split; [reflexivity |].
  apply (cycle_close_unanswered (F := Sample.whole_floats)
           Sample.keys w Buy origin
           [HttpGet (TAAPI_URL Sample.keys)] (past_taapi origin) 25
           [asking (F := Sample.whole_floats) Sample.keys "gsk_key" 25;
            Print (AiDecision BUY)]
           (past_groq (past_taapi origin)) RequestException);
    reflexivity.
Qed.

(* ================================================================== *)
(** ** The whole of a cycle *)

Section Outline.

Context {F : PyFloat}.
Variable cfg : config.
Variable w : world.

Lemma trade_decision decision s :
  trade decision = Some s -> decision = decision_for s.
Proof.
  unfold trade.
  destruct (unicode_eqb decision BUY) eqn:Hb.
  - apply unicode_eqb_eq in Hb. intros [= <-]. exact Hb.
  - destruct (unicode_eqb decision SELL) eqn:Hs; [| discriminate].
    apply unicode_eqb_eq in Hs. intros [= <-]. exact Hs.
Qed.

Lemma trade_none decision :
  trade decision = None -> decision <> BUY /\ decision <> SELL.
Proof.
  unfold trade.
  destruct (unicode_eqb decision BUY) eqn:Hb; [discriminate |].
  destruct (unicode_eqb decision SELL) eqn:Hs; [discriminate |].
  intros _. split; now apply unicode_eqb_neq.
Qed.

(** Every course a cycle can take, with its trace. *)
Lemma cycle_outline c :
  cycle cfg w c =
  let head := [Print Separator; Print Checking; HttpGet (TAAPI_URL cfg)] in
  match reading (taapi w (at_taapi c)) with
  | Raised e =>
      (head ++ [Print (RsiFailed e); Print Skipping; Sleep 300],
       past_taapi c, Ok tt)
  | Ok rsi =>
      match GROQ_API_KEY cfg with
      | None => (head ++ [Print (CurrentRsi rsi)], past_taapi c, Raised GroqError)
      | Some key =>
          let o := groq w (at_groq c) in
          let asked :=
            head ++ [Print (CurrentRsi rsi); asking cfg key rsi;
                     Print (advice_line o)] in
          let c1 := past_groq (past_taapi c) in
          match trade (decision_of o) with
          | None =>
              (asked ++ [Print Nothing; Print CycleComplete; Sleep 300],
               c1, Ok tt)
          | Some s =>
              let closing :=
                order_request cfg (clock w (at_clock c))
                  (close_payload (side_name s)) in
              let opening :=
                order_request cfg (clock w (S (at_clock c)))
                  (open_payload (side_name s)) in
              let c2 := past_bitget (past_clock c1) in
              let c3 := past_bitget (past_clock c2) in
              match bitget w (at_bitget c) with
              | Fails e => (asked ++ [closing], c2, Raised e)
              | Replies r =>
                  match bitget w (S (at_bitget c)) with
                  | Fails e =>
                      (asked ++ closing :: answered r ++ [opening], c3,
                       Raised e)
                  | Replies r' =>
                      (asked ++ closing :: answered r
                       ++ opening :: answered r'
                       ++ [Print CycleComplete; Sleep 300], c3, Ok tt)
                  end
              end
          end
      end
  end.
Proof.
  rewrite cycle_run, get_rsi_value_run. cbv zeta.
  destruct (reading (taapi w (at_taapi c))) as [rsi | e]; [| reflexivity].
  rewrite get_ai_decision_run.
  destruct (GROQ_API_KEY cfg) as [key |]; [| reflexivity].
  cbv zeta. cbn [at_groq past_taapi].
  destruct (trade (decision_of (groq w (at_groq c)))) as [s |] eqn:Ht.
  - apply trade_decision in Ht. rewrite Ht.
    rewrite act_trade. cbv zeta.
    cbn [at_bitget at_clock past_groq past_taapi].
    destruct (bitget w (at_bitget c)) as [e | r]; [reflexivity |].
    destruct (bitget w (S (at_bitget c))); reflexivity.
  - apply trade_none in Ht as [Hb Hs].
    rewrite act_nothing by assumption. reflexivity.
Qed.

End Outline.

(** Every course of a cycle, one goal each. *)
Ltac cycle_courses c :=
  rewrite (cycle_outline _ _ c); cbv zeta;
  destruct (reading (taapi _ (at_taapi c))) as [?rsi | ?e];
  [ destruct (GROQ_API_KEY _) as [?key |];
    [ destruct (trade (decision_of (groq _ (at_groq c)))) as [?s |];
      [ destruct (bitget _ (at_bitget c)) as [?e | ?r];
        [ | destruct (bitget _ (S (at_bitget c))) as [?e | ?r] ] | ] | ] | ].
(* ================================================================== *)
(** ** Every cycle *)

Section EveryCycle.

Context {F : PyFloat}.
Variable cfg : config.
Variable w : world.

(** The orders of a cycle, read off the reading, the key, the decision
    and the answer to the close request. *)
Lemma cycle_order_calls c :
  order_calls (fst (fst (cycle cfg w c))) =
  match reading (taapi w (at_taapi c)), GROQ_API_KEY cfg with
  | Ok _, Some _ =>
      match trade (decision_of (groq w (at_groq c))) with
      | None => []
      | Some s =>
          order_request cfg (clock w (at_clock c))
            (close_payload (side_name s))
          :: match bitget w (at_bitget c) with
             | Fails _ => []
             | Replies _ =>
                 [order_request cfg (clock w (S (at_clock c)))
                    (open_payload (side_name s))]
             end
      end
  | _, _ => []
  end.
Proof. cycle_courses c; reflexivity. Qed.

Lemma order_request_headers now payload :
  let e := order_request cfg now payload in
  target e = Some ("POST", (BASE_URL ++ place_order)%string)
  /\ header "paptrading" e = Some "1"
  /\ header "Content-Type" e = Some "application/json"
  /\ header "locale" e = Some "en-US"
  /\ header "ACCESS-KEY" e = Some (BITGET_API_KEY cfg)
  /\ header "ACCESS-PASSPHRASE" e = Some (BITGET_PASSPHRASE cfg)
  /\ header "ACCESS-TIMESTAMP" e = Some (str_of_int now)
  /\ header "ACCESS-SIGN" e =
       Some (generate_signature (str_of_int now) "POST" place_order payload
               (BITGET_SECRET cfg))
  /\ body_sent e = Some (dumps_default payload).
Proof. repeat split. Qed.

(** X1.  A cycle that returns has paused exactly once, for 300 seconds,
    and the pause is the last thing it did, on the skip path as on the
    others; a cycle that raises has not paused at all. *)
Theorem cycle_sleeps_once c :
  match cycle cfg w c with
  | (t, _, Ok _) =>
      sleeps t = [Sleep 300] /\ last t (Print Starting) = Sleep 300
  | (t, _, Raised _) => sleeps t = []
  end.
Proof. cycle_courses c; repeat split. Qed.


(** X6.  What a cycle sends over the network, in order: first one GET to
    the indicator URL; then, only if that gave a reading and the client of
    the advisor could be built, one completion request whose user prompt
    carries the reading; then its orders.  The advisor is not asked
    without a reading, nor an order sent without the advisor asked. *)
Theorem cycle_calls_in_order c :
  calls (fst (fst (cycle cfg w c))) =
  HttpGet (TAAPI_URL cfg)
  :: match reading (taapi w (at_taapi c)), GROQ_API_KEY cfg with
     | Ok rsi, Some key =>
         asking cfg key rsi :: order_calls (fst (fst (cycle cfg w c)))
     | _, _ => []
     end.
Proof. cycle_courses c; reflexivity. Qed.

(** X7.  Every order a cycle sends is a POST to the place-order endpoint
    in paper-trading mode ([paptrading] is 1), with the JSON content type,
    the locale en-US, the configured key and passphrase, and a signature
    made for the timestamp and the payload of that same request. *)
Theorem orders_are_paper_orders c :
  Forall
    (fun e =>
       target e = Some ("POST", (BASE_URL ++ place_order)%string)
       /\ header "paptrading" e = Some "1"
       /\ header "Content-Type" e = Some "application/json"
       /\ header "locale" e = Some "en-US"
       /\ header "ACCESS-KEY" e = Some (BITGET_API_KEY cfg)
       /\ header "ACCESS-PASSPHRASE" e = Some (BITGET_PASSPHRASE cfg)
       /\ exists now payload,
            header "ACCESS-TIMESTAMP" e = Some (str_of_int now)
            /\ header "ACCESS-SIGN" e =
                 Some (generate_signature (str_of_int now) "POST" place_order
                         payload (BITGET_SECRET cfg))
            /\ body_sent e = Some (dumps_default payload))
    (order_calls (fst (fst (cycle cfg w c)))).
Proof.
  assert (H : forall now payload,
             (fun e =>
                target e = Some ("POST", (BASE_URL ++ place_order)%string)
                /\ header "paptrading" e = Some "1"
                /\ header "Content-Type" e = Some "application/json"
                /\ header "locale" e = Some "en-US"
                /\ header "ACCESS-KEY" e = Some (BITGET_API_KEY cfg)
                /\ header "ACCESS-PASSPHRASE" e = Some (BITGET_PASSPHRASE cfg)
                /\ exists now payload,
                     header "ACCESS-TIMESTAMP" e = Some (str_of_int now)
                     /\ header "ACCESS-SIGN" e =
                          Some (generate_signature (str_of_int now) "POST"
                                  place_order payload (BITGET_SECRET cfg))
                     /\ body_sent e = Some (dumps_default payload))
               (order_request cfg now payload)).
  { intros now payload.
    destruct (order_request_headers now payload)
      as (H1 & H2 & H3 & H4 & H5 & H6 & H7 & H8 & H9).
    repeat (split; [assumption |]). exists now, payload. auto. }
  rewrite cycle_order_calls.
  destruct (reading (taapi w (at_taapi c))); [| constructor].
  destruct (GROQ_API_KEY cfg) as [key |]; [| constructor].
  destruct (trade (decision_of (groq w (at_groq c)))); [| constructor].
  constructor; [apply H |].
  destruct (bitget w (at_bitget c)); repeat constructor. apply H.
Qed.

(** X8.  The orders of a cycle are none, or the close order of one side
    alone, or that close order followed by the open order of the same
    side, the two with successive clock readings: an open order is never
    sent without the close order before it, never on another side, and a
    cycle never sends more than two orders. *)
Theorem orders_close_before_open c :
  let orders := order_calls (fst (fst (cycle cfg w c))) in
  let closing s :=
    order_request cfg (clock w (at_clock c)) (close_payload (side_name s)) in
  let opening s :=
    order_request cfg (clock w (S (at_clock c)))
      (open_payload (side_name s)) in
  orders = []
  \/ exists s, orders = [closing s] \/ orders = [closing s; opening s].
Proof.
  cbv zeta. rewrite cycle_order_calls.
  destruct (reading (taapi w (at_taapi c))); [| auto].
  destruct (GROQ_API_KEY cfg) as [key |]; [| auto].
  destruct (trade (decision_of (groq w (at_groq c)))) as [s |]; [| auto].
  right. exists s. destruct (bitget w (at_bitget c)); auto.
Qed.

End EveryCycle.

(* ================================================================== *)
(** ** The loop *)

Section Loop.

Context {F : PyFloat}.
Variable cfg : config.
Variable w : world.



End Loop.

(* ================================================================== *)
(** ** More on the exchange client and the indicator fetch *)

Section ClientEdges.

Context {F : PyFloat}.
Variable cfg : config.
Variable w : world.

(** X9.  [bitget_request] catches nothing of the transport: when the
    request gets no response, the exception of [requests] comes out of it
    as it is, after the request was sent and one clock reading was used,
    and nothing is printed. *)
Theorem unanswered_request_raises method endpoint payload c e :
  bitget w (at_bitget c) = Fails e ->
  bitget_request cfg w method endpoint payload c =
    ([sent cfg method endpoint payload (clock w (at_clock c))],
     past_bitget (past_clock c), Raised e).
Proof. intros H. rewrite bitget_request_run, H. reflexivity. Qed.

(** X10.  [get_rsi_value] never raises and sends exactly one request, the
    GET to the indicator URL; it returns [None] exactly when there is no
    response, or the body is not JSON, or the body has no [value] that
    [float] accepts, and a reading in every other case. *)
Theorem fetch_none_iff_unavailable c :
  (exists x, snd (get_rsi_value cfg w c) = Ok x)
  /\ (snd (get_rsi_value cfg w c) = Ok None
      <-> exists e, unavailable (taapi w (at_taapi c)) e)
  /\ calls (fst (fst (get_rsi_value cfg w c))) = [HttpGet (TAAPI_URL cfg)].
Proof.
  rewrite get_rsi_value_run.
  destruct (reading (taapi w (at_taapi c))) as [x | e] eqn:Hr; cbn [fst snd].
  - split; [eauto |]. split; [| reflexivity]. split; [discriminate |].
    intros [e He]. apply unavailable_reading in He. congruence.
  - split; [eauto |]. split; [| reflexivity]. split; [| reflexivity].
    intros _. exists e. now apply unavailable_reading.
Qed.

(** X11.  A request without payload still has a body: with [None] as
    payload [bitget_request] sends the four characters [null], with an
    empty dict the two braces, while the signature in its headers is made
    over timestamp, uppercased method and path alone. *)
Theorem bodyless_request_sends_text method endpoint c :
  let timestamp := str_of_int (clock w (at_clock c)) in
  let signature :=
    decode_ascii
      (b64encode
         (hmac_sha256 (encode_utf8 (BITGET_SECRET cfg))
            (unicode_encode
               (unicode_of timestamp ++ unicode_upper (unicode_of method)
                ++ unicode_of endpoint)))) in
  let request data :=
    HttpRequest method (BASE_URL ++ endpoint)%string
      (request_headers cfg timestamp signature) data in
  hd (Print Starting) (fst (fst (bitget_request cfg w method endpoint JNull c)))
    = request "null"
  /\ hd (Print Starting)
        (fst (fst (bitget_request cfg w method endpoint (JObj []) c)))
     = request "{}".
Proof.
  cbv zeta. rewrite !bitget_request_run. cbv zeta.
  unfold sent, generate_signature. cbn [truthy].
  change (unicode_of "") with (@nil Z). rewrite !app_nil_r.
  destruct (bitget w (at_bitget c)); split; reflexivity.
Qed.

End ClientEdges.

(** An open order that gets no response. *)
Lemma unanswered_request_raises_witness :
  let w := Sample.steady (Sample.rsi_reply 200 25) (Sample.says "BUY")
             (Fails RequestException) in
  bitget_request Sample.keys w "POST" place_order (open_payload "buy") origin =
    ([sent Sample.keys "POST" place_order (open_payload "buy") 1700000000000],
     past_bitget (past_clock origin), Raised RequestException).
Proof.
  intro w.
  apply (unanswered_request_raises (F := Sample.whole_floats) Sample.keys w
           "POST" place_order (open_payload "buy") origin RequestException).
  reflexivity.
Defined.

(* ================================================================== *)
(** ** The shape of a signature *)

Section Shapes.

Context {F : PyFloat}.

Lemma round_length s kw :
  List.length s = 8%nat -> List.length (Sha256.round s kw) = 8%nat.
Proof.
  destruct s as [| a [| b [| c [| d [| e [| f [| g [| h [| i s]]]]]]]]];
    try discriminate.
  reflexivity.
Qed.

Lemma rounds_length l s :
  List.length s = 8%nat ->
  List.length (fold_left Sha256.round l s) = 8%nat.
Proof.
  revert s. induction l as [| kw l IH]; intros s Hs; [exact Hs |].
  cbn [fold_left]. apply IH. now apply round_length.
Qed.

Lemma compress_length h block :
  List.length h = 8%nat -> List.length (Sha256.compress h block) = 8%nat.
Proof.
  intros Hh. unfold Sha256.compress.
  rewrite length_map, length_combine, rounds_length, Hh by exact Hh.
  reflexivity.
Qed.

Lemma blocks_length n h b :
  List.length h = 8%nat -> List.length (Sha256.blocks n h b) = 8%nat.
Proof.
  revert h b. induction n as [| n IH]; intros h b Hh; [exact Hh |].
  cbn [Sha256.blocks]. apply IH. now apply compress_length.
Qed.

Lemma be_bytes_length n x : List.length (Sha256.be_bytes n x) = n.
Proof. induction n as [| n IH]; cbn; [| rewrite IH]; reflexivity. Qed.

Lemma words_bytes_length (l : list Z) :
  List.length (flat_map (Sha256.be_bytes 4) l) = (4 * List.length l)%nat.
Proof.
  induction l as [| x l IH]; [reflexivity |].
  cbn [flat_map List.length]. rewrite List.length_app, be_bytes_length, IH. lia.
Qed.

(** A digest has 32 bytes. *)
Lemma digest_length msg : List.length (Sha256.digest msg) = 32%nat.
Proof.
  unfold Sha256.digest.
  rewrite words_bytes_length, blocks_length; reflexivity.
Qed.

Lemma b64_groups_length n (b : bytes) :
  (List.length b <= n)%nat ->
  List.length (b64_groups n b) = (4 * ((List.length b + 2) / 3))%nat.
Proof.
  revert b. induction n as [| n IH]; intros b Hb.
  - destruct b; [reflexivity | cbn in Hb; lia].
  - destruct b as [| x [| y [| z r]]]; try reflexivity.
    cbn [b64_groups]. cbn [List.length app] in *.
    rewrite IH by lia.
    replace (S (S (S (List.length r))) + 2)%nat
      with (List.length r + 2 + 1 * 3)%nat by lia.
    rewrite Nat.div_add by lia. lia.
Qed.

Lemma decode_ascii_length (b : bytes) :
  String.length (decode_ascii b) = List.length b.
Proof. induction b as [| x b IH]; cbn; [| rewrite IH]; reflexivity. Qed.

(** X12.  Whatever is signed, with whatever secret, the signature is 44
    characters long: the base64 text of a 32-byte digest. *)
Theorem signature_has_44_characters timestamp method path body secret :
  String.length (generate_signature timestamp method path body secret)
  = 44%nat.
Proof.
  unfold generate_signature, hmac_sha256, b64encode.
  rewrite decode_ascii_length, b64_groups_length by apply le_n.
  rewrite digest_length. reflexivity.
Qed.

Lemma to_upper_capital c : to_upper (ord (capital c)) = to_upper (ord c).
Proof. destruct c as [[] [] [] [] [] [] [] []]; vm_compute; reflexivity. Qed.

Lemma unicode_upper_capitals s :
  unicode_upper (unicode_of (capitals s)) = unicode_upper (unicode_of s).
Proof.
  induction s as [| c s IH]; [reflexivity |].
  change (to_upper (ord (capital c))
          ++ unicode_upper (unicode_of (capitals s))
          = to_upper (ord c) ++ unicode_upper (unicode_of s)).
  now rewrite to_upper_capital, IH.
Qed.

(** X13.  The case of the method does not show in the signature: a method
    signs as the same method in capitals does. *)
Theorem signature_ignores_method_case timestamp method path body secret :
  generate_signature timestamp method path body secret =
  generate_signature timestamp (capitals method) path body secret.
Proof. unfold generate_signature. now rewrite unicode_upper_capitals. Qed.

End Shapes.
(* ================================================================== *)
(** ** The shape of a decision *)

Section Normal.

Context {F : PyFloat}.

Lemma special_settled :
  forallb (fun p => settled (snd p)) upper_special = true.
Proof. vm_compute. reflexivity. Qed.

Lemma runs_settled :
  forallb
    (fun r =>
       let '(_, _, step, shift) := r in
       (0 <? step)
       && forallb (fun x => settled [x + shift]) (run_points r))
    upper_runs = true.
Proof. vm_compute. reflexivity. Qed.

Lemma in_run_points c first last step shift :
  0 < step ->
  in_run c (first, last, step, shift) = true ->
  In c (run_points (first, last, step, shift)).
Proof.
  intros Hs H. unfold in_run in H.
  apply andb_prop in H as [H Hm]. apply andb_prop in H as [Hf Hl].
  apply Z.leb_le in Hf, Hl. apply Z.eqb_eq in Hm.
  unfold run_points. apply in_map_iff.
  exists (Z.to_nat ((c - first) / step)). split.
  - rewrite Z2Nat.id by (apply Z.div_pos; lia).
    pose proof (Z.div_mod (c - first) step ltac:(lia)). lia.
  - apply in_seq. split; [lia |].
    cbn [Nat.add]. apply Nat.lt_succ_r. apply Z2Nat.inj_le.
    + apply Z.div_pos; lia.
    + apply Z.div_pos; lia.
    + apply Z.div_le_mono; lia.
Qed.

(** Every uppercase is settled, but for a white space left as it is. *)
Lemma to_upper_settled c :
  settled (to_upper c) = true \/ to_upper c = [c].
Proof.
  unfold to_upper.
  destruct (find (fun p => fst p =? c) upper_special) as [[k u] |] eqn:Hs.
  - left. apply find_some in Hs as [Hin _].
    pose proof special_settled as H.
    rewrite forallb_forall in H. exact (H _ Hin).
  - destruct (find (in_run c) upper_runs) as [[[[first last] step] shift] |]
      eqn:Hr; [| now right].
    left. apply find_some in Hr as [Hin Hc].
    pose proof runs_settled as H. rewrite forallb_forall in H.
    specialize (H _ Hin). cbv beta iota in H.
    apply andb_prop in H as [Hstep H]. apply Z.ltb_lt in Hstep.
    rewrite forallb_forall in H.
    exact (H _ (in_run_points _ _ _ _ _ Hstep Hc)).
Qed.

Lemma settled_fixed u :
  forallb (fun x => unicode_eqb (to_upper x) [x]) u = true ->
  unicode_upper u = u.
Proof.
  induction u as [| x u IH]; [reflexivity |].
  cbn [forallb]. intros H. apply andb_prop in H as [Hx Hu].
  apply unicode_eqb_eq in Hx. unfold unicode_upper in *.
  cbn [flat_map]. rewrite Hx, (IH Hu). reflexivity.
Qed.

Lemma unicode_upper_app a b :
  unicode_upper (a ++ b) = unicode_upper a ++ unicode_upper b.
Proof. apply flat_map_app. Qed.

(** [str.upper] twice is [str.upper] once. *)
Lemma unicode_upper_idem t : unicode_upper (unicode_upper t) = unicode_upper t.
Proof.
  induction t as [| c t IH]; [reflexivity |].
  change (unicode_upper (c :: t)) with (to_upper c ++ unicode_upper t).
  rewrite unicode_upper_app, IH. f_equal.
  destruct (to_upper_settled c) as [H | H].
  - apply andb_prop in H as [H _]. now apply settled_fixed.
  - rewrite H. unfold unicode_upper. cbn [flat_map].
    rewrite H. reflexivity.
Qed.

Lemma to_upper_starts c :
  is_space c = false ->
  exists x u, to_upper c = x :: u /\ is_space x = false.
Proof.
  intros Hc. destruct (to_upper_settled c) as [H | H].
  - apply andb_prop in H as [_ H].
    destruct (to_upper c) as [| x u]; [discriminate |].
    apply andb_prop in H as [H _]. apply negb_true_iff in H. eauto.
  - rewrite H. eauto.
Qed.

Lemma to_upper_ends c :
  is_space c = false ->
  to_upper c <> [] /\ is_space (last (to_upper c) 0) = false.
Proof.
  intros Hc. destruct (to_upper_settled c) as [H | H].
  - apply andb_prop in H as [_ H].
    destruct (to_upper c) as [| x u]; [discriminate |].
    apply andb_prop in H as [_ H]. apply negb_true_iff in H.
    split; [discriminate | exact H].
  - rewrite H. split; [discriminate | exact Hc].
Qed.

Lemma to_upper_some c : to_upper c <> [].
Proof.
  destruct (to_upper_settled c) as [H | H].
  - apply andb_prop in H as [_ H]. destruct (to_upper c); [discriminate H |].
    discriminate.
  - rewrite H. discriminate.
Qed.

Lemma unicode_upper_some t : t <> [] -> unicode_upper t <> [].
Proof.
  destruct t as [| c t]; [congruence |]. intros _.
  change (unicode_upper (c :: t)) with (to_upper c ++ unicode_upper t).
  pose proof (to_upper_some c). destruct (to_upper c); [congruence |].
  discriminate.
Qed.

Lemma last_append (a b : list Z) d : b <> [] -> last (a ++ b) d = last b d.
Proof.
  intros Hb. induction a as [| x a IH]; [reflexivity |].
  cbn [app]. destruct (a ++ b) eqn:E.
  - apply app_eq_nil in E as [_ E]. congruence.
  - rewrite <- IH. reflexivity.
Qed.

Lemma unicode_lstrip_starts t : starts_clean (unicode_lstrip t).
Proof.
  induction t as [| c t IH]; [exact I |].
  cbn [unicode_lstrip]. destruct (is_space c) eqn:Hc; [exact IH | exact Hc].
Qed.

Lemma unicode_rstrip_starts t :
  starts_clean t -> starts_clean (unicode_rstrip t).
Proof.
  destruct t as [| c t]; [trivial |].
  cbn [starts_clean unicode_rstrip]. intros Hc. rewrite Hc.
  destruct (unicode_rstrip t); exact Hc.
Qed.

Lemma unicode_rstrip_ends t : ends_clean (unicode_rstrip t).
Proof.
  induction t as [| c t IH]; [exact I |].
  cbn [unicode_rstrip]. destruct (unicode_rstrip t) as [| x r] eqn:E.
  - destruct (is_space c) eqn:Hc; [exact I | exact Hc].
  - exact IH.
Qed.

Lemma unicode_lstrip_clean t : starts_clean t -> unicode_lstrip t = t.
Proof.
  destruct t as [| c t]; [reflexivity |].
  cbn [starts_clean unicode_lstrip]. now intros ->.
Qed.

Lemma unicode_rstrip_clean t : ends_clean t -> unicode_rstrip t = t.
Proof.
  induction t as [| c t IH]; [reflexivity |].
  destruct t as [| x r].
  - cbn. now intros ->.
  - intros H. change (unicode_rstrip (c :: x :: r))
      with (match unicode_rstrip (x :: r) with
            | [] => if is_space c then [] else [c]
            | r' => c :: r'
            end).
    rewrite (IH H). reflexivity.
Qed.

Lemma unicode_strip_clean t :
  starts_clean t -> ends_clean t -> unicode_strip t = t.
Proof.
  intros Hs He. unfold unicode_strip.
  rewrite (unicode_lstrip_clean t Hs). now apply unicode_rstrip_clean.
Qed.

Lemma unicode_upper_starts t :
  starts_clean t -> starts_clean (unicode_upper t).
Proof.
  destruct t as [| c t]; [trivial |]. cbn [starts_clean]. intros Hc.
  change (unicode_upper (c :: t)) with (to_upper c ++ unicode_upper t).
  destruct (to_upper_starts c Hc) as (x & u & -> & Hx). exact Hx.
Qed.

Lemma ends_clean_last t :
  t <> [] -> ends_clean t <-> is_space (last t 0) = false.
Proof. destruct t; [congruence | reflexivity]. Qed.

Lemma unicode_upper_ends t : ends_clean t -> ends_clean (unicode_upper t).
Proof.
  induction t as [| c t IH]; [trivial |]. intros H.
  change (unicode_upper (c :: t)) with (to_upper c ++ unicode_upper t).
  destruct t as [| x r].
  - cbn [ends_clean last] in H. destruct (to_upper_ends c H) as [Hn Hl].
    change (unicode_upper []) with (@nil Z). rewrite app_nil_r.
    now apply ends_clean_last.
  - assert (Hne : unicode_upper (x :: r) <> [])
      by (apply unicode_upper_some; discriminate).
    apply ends_clean_last.
    + intros E. apply app_eq_nil in E as [_ E]. congruence.
    + rewrite last_append by exact Hne.
      apply ends_clean_last; [exact Hne |]. exact (IH H).
Qed.

Variable cfg : config.
Variable w : world.

(** X14.  With [GROQ_API_KEY] set, the decision [get_ai_decision] returns
    is in normal form whatever the advisor wrote: uppercasing it or
    stripping it again changes nothing, so the comparisons in [main] meet
    no letter that has an uppercase and no white space around the word. *)
Theorem decision_is_normalised key rsi c :
  GROQ_API_KEY cfg = Some key ->
  exists decision,
    snd (get_ai_decision cfg w rsi c) = Ok decision
    /\ unicode_upper decision = decision
    /\ unicode_strip decision = decision.
Proof.
  intros Hkey. rewrite get_ai_decision_run, Hkey. cbv zeta.
  unfold decision_of, advice.
  destruct (groq w (at_groq c)) as [e | [| [content |] rest]];
    try (exists NOTHING; repeat split; reflexivity).
  exists (unicode_upper (unicode_strip content)).
  split; [reflexivity |]. split.
  - apply unicode_upper_idem.
  - apply unicode_strip_clean.
    + apply unicode_upper_starts, unicode_rstrip_starts,
        unicode_lstrip_starts.
    + apply unicode_upper_ends, unicode_rstrip_ends.
Qed.

End Normal.

(** The advisor writes a sentence with an accent and spaces around it. *)
Lemma decision_is_normalised_witness :
  let w := Sample.steady (Sample.rsi_reply 200 50)
             (ChatReplies [Some [32; 99; 97; 102; 233; 32; 63; 10]])
             (Sample.ok_reply (JObj [])) in
  exists decision,
    snd (get_ai_decision Sample.keys w 50 origin) = Ok decision
    /\ unicode_upper decision = decision
    /\ unicode_strip decision = decision.
Proof.
  intro w.
  apply (decision_is_normalised (F := Sample.whole_floats) Sample.keys w
           "gsk_key" 50 origin).
  reflexivity.
Defined.
